(** * The double-loop coordinator of [idaes/apps/grid_integration/prescient_plugin.py]

    A shallow embedding of the class [DoubleLoopCoordinator]: the callbacks it
    registers into the Prescient simulator, the run-time extensions dictionary
    they share, and the reshaping of market data they perform.

    Conventions of the embedding.
    - Python integers are [Z]; [range a b] is [seqZ a (b - a)].
    - Floating point payloads (dispatch levels, prices, quantities) are only
      moved around by this module, never computed with: they are elements of
      an arbitrary type [num].
    - A dictionary that is only indexed is a [gmap]; a dictionary that is
      iterated with [.items()] is an insertion-ordered association list.
    - The simulator, the market instance handed to a callback and the
      operation statistics are mutable objects: they live in a [state] that
      every method threads, together with the log of the calls made to the
      two external collaborators (bidder and tracker).
    - The collaborators are not part of this module: a call to one of them
      is logged with its arguments and returns what [Collaborators] says,
      which may depend on the calls made before.
    - A Python exception ends the method with [Raise e]; the state reached at
      that point is kept, so that one can say what a failed call changed. *)

From Stdlib Require Import ZArith Lia.
From stdpp Require Import base option list gmap strings.

Local Open Scope string_scope.
Local Open Scope Z_scope.

(** ** Python dictionaries that are iterated *)

Module PyDict.

Definition t (V : Type) := list (string * V).

Fixpoint get {V} (d : t V) (k : string) : option V :=
  match d with
  | [] => None
  | (k', v) :: d' => if decide (k' = k) then Some v else get d' k
  end.

(** [d[k] = v]: an existing key keeps its position, a new key goes last. *)
Fixpoint set {V} (d : t V) (k : string) (v : V) : t V :=
  match d with
  | [] => [(k, v)]
  | (k', v') :: d' =>
      if decide (k' = k) then (k, v) :: d' else (k', v') :: set d' k v
  end.

Definition items {V} (d : t V) : list (string * V) := d.

End PyDict.

(** ** Exceptions and results *)

Inductive exn :=
| KeyError
| IndexError
| AttributeError
| TypeError
| NameError (name : string)
| UnboundLocalError (name : string).

Inductive result (A : Type) :=
| Ok (a : A)
| Raise (e : exn).
Arguments Ok {A} a.
Arguments Raise {A} e.

(** Object identities of the external collaborators (bidder, tracker,
    tracking models). *)
Definition handle := nat.

(** ** Registration into [prescient.plugins] *)

Inductive hook :=
| Initialization
| BeforeRucSolve
| BeforeOperationsSolve
| AfterOperations
| UpdateOperationsStats
| AfterRucActivation
| AfterSimulation.

(** The methods of the class that are handed to the simulator. *)
Inductive method :=
| m_initialize_customized_results
| m_initialize_bidding_object
| m_initialize_tracking_object
| m_bid_into_DAM
| m_bid_into_RTM
| m_track_sced_signal
| m_update_observed_thermal_dispatch
| m_after_ruc_activation
| m_write_plugin_results.

#[global] Instance hook_eq_dec : EqDecision hook.
Proof. solve_decision. Defined.
#[global] Instance method_eq_dec : EqDecision method.
Proof. solve_decision. Defined.

Record DoubleLoopCoordinator := {
  bidder : handle;
  tracker : handle;
}.

#[global] Instance coordinator_eq_dec : EqDecision DoubleLoopCoordinator.
Proof. solve_decision. Defined.

(** [self.f]: a method bound to its instance. *)
Definition bound_method : Type := DoubleLoopCoordinator * method.

Inductive default_value :=
| DBool (b : bool)
| DInt (z : Z)
| DStr (s : string).

(** An [optparse.Option] (the help text is left out). *)
Record Option := {
  opt_flag : string;
  opt_action : string;
  opt_dest : string;
  opt_type : option string;
  opt_default : default_value;
}.

(** The part of [prescient.plugins] this module writes to. *)
Record plugins := {
  custom_commandline_options : list Option;
  callbacks : list (hook * bound_method);
}.

Definition add_custom_commandline_option (opt : Option) (p : plugins) : plugins :=
  {| custom_commandline_options := custom_commandline_options p ++ [opt];
     callbacks := callbacks p |}.

Definition register_callback (h : hook) (f : bound_method) (p : plugins) : plugins :=
  {| custom_commandline_options := custom_commandline_options p;
     callbacks := callbacks p ++ [(h, f)] |}.

Definition store_true (flag dest : string) : Option :=
  {| opt_flag := flag; opt_action := "store_true"; opt_dest := dest;
     opt_type := None; opt_default := DBool false |}.

Definition store (flag dest ty : string) (d : default_value) : Option :=
  {| opt_flag := flag; opt_action := "store"; opt_dest := dest;
     opt_type := Some ty; opt_default := d |}.

Definition _register_custom_commandline_options (p : plugins) : plugins :=
  let p := add_custom_commandline_option (store_true "--track-ruc-signal" "track_ruc_signal") p in
  let p := add_custom_commandline_option (store_true "--track-sced-signal" "track_sced_signal") p in
  let p := add_custom_commandline_option (store_true "--hybrid-tracking" "hybrid_tracking") p in
  let p := add_custom_commandline_option (store "--track-horizon" "track_horizon" "int" (DInt 48)) p in
  let p := add_custom_commandline_option
             (store "--bidding-generator" "bidding_generator" "string" (DStr "102_STEAM_3")) p in
  let p := add_custom_commandline_option (store_true "--bidding" "bidding") p in
  let p := add_custom_commandline_option (store "--deviation-weight" "deviation_weight" "float" (DInt 30)) p in
  let p := add_custom_commandline_option (store "--ramping-weight" "ramping_weight" "float" (DInt 20)) p in
  let p := add_custom_commandline_option (store "--cost-weight" "cost_weight" "float" (DInt 1)) p in
  let p := add_custom_commandline_option
             (store "--rts_gmlc_data_dir" "rts_gmlc_data_dir" "str"
                (DStr "./RTS-GMLC/RTS_Data/SourceData/")) p in
  let p := add_custom_commandline_option
             (store "--price_forecast_file" "price_forecast_file" "str"
                (DStr "../../prescient/plugins/price_forecasts/lmp_forecasts_concat.csv")) p in
  p.

Section Registration.

Variable self : DoubleLoopCoordinator.

Definition _register_initialization_callbacks (p : plugins) : plugins :=
  let p := register_callback Initialization (self, m_initialize_customized_results) p in
  let p := register_callback Initialization (self, m_initialize_bidding_object) p in
  let p := register_callback Initialization (self, m_initialize_tracking_object) p in
  p.

Definition _register_before_ruc_solve_callbacks (p : plugins) : plugins :=
  register_callback BeforeRucSolve (self, m_bid_into_DAM) p.

Definition _register_before_operations_solve_callbacks (p : plugins) : plugins :=
  register_callback BeforeOperationsSolve (self, m_bid_into_RTM) p.

Definition _register_after_operations_callbacks (p : plugins) : plugins :=
  register_callback AfterOperations (self, m_track_sced_signal) p.

Definition _register_update_operations_stats_callbacks (p : plugins) : plugins :=
  register_callback UpdateOperationsStats (self, m_update_observed_thermal_dispatch) p.

Definition _register_after_ruc_activation_callbacks (p : plugins) : plugins :=
  register_callback AfterRucActivation (self, m_after_ruc_activation) p.

Definition _register_after_simulation_callback (p : plugins) : plugins :=
  register_callback AfterSimulation (self, m_write_plugin_results) p.

Definition register_callbacks (p : plugins) : plugins :=
  let p := _register_custom_commandline_options p in
  let p := _register_initialization_callbacks p in
  let p := _register_before_ruc_solve_callbacks p in
  let p := _register_before_operations_solve_callbacks p in
  let p := _register_after_operations_callbacks p in
  let p := _register_update_operations_stats_callbacks p in
  let p := _register_after_ruc_activation_callbacks p in
  let p := _register_after_simulation_callback p in
  p.

End Registration.

(** [DoubleLoopCoordinator(bidder, tracker)]: the constructor. *)
Definition __init__ (bidder tracker : handle) (p : plugins)
  : DoubleLoopCoordinator * plugins :=
  let self := {| bidder := bidder; tracker := tracker |} in
  (self, register_callbacks self p).

(** The callbacks registered at one lifecycle point, in registration order. *)
Definition registered_at (h : hook) (l : list (hook * bound_method)) : list bound_method :=
  snd <$> filter (λ e, e.1 = h) l.

(** What one coordinator registers, in order. *)
Definition coordinator_callbacks (self : DoubleLoopCoordinator) : list (hook * bound_method) :=
  [ (Initialization, (self, m_initialize_customized_results));
    (Initialization, (self, m_initialize_bidding_object));
    (Initialization, (self, m_initialize_tracking_object));
    (BeforeRucSolve, (self, m_bid_into_DAM));
    (BeforeOperationsSolve, (self, m_bid_into_RTM));
    (AfterOperations, (self, m_track_sced_signal));
    (UpdateOperationsStats, (self, m_update_observed_thermal_dispatch));
    (AfterRucActivation, (self, m_after_ruc_activation));
    (AfterSimulation, (self, m_write_plugin_results)) ].

(** ** Data the callbacks receive *)

Set Implicit Arguments.

(** A bid set, [{t: {generator: {power: cost}}}]. The innermost dictionary is
    read with [.items()], so it is kept as its list of (power, cost) pairs. *)
Abbreviation bids num := (gmap Z (gmap string (list (num * num)))).

(** [simulator.time_manager.current_time] is [None] until the first time
    step. *)
Record Time := {
  date : string;
  hour : Z;
}.

Record TimeManager := {
  current_time : option Time;
}.

(** A cleared day-ahead market: dispatch by (generator, hour). *)
Record RucMarket (num : Type) := {
  thermal_gen_cleared_DA : gmap (string * Z) num;
}.

(** What the entries of [simulator.data_manager.extensions] hold. *)
Inductive ext_value (num : Type) :=
| XNone
| XBids (b : bids num)
| XPlugins (d : PyDict.t handle)
| XResults (d : PyDict.t (list (string + num))).
Arguments XNone {num}.
Arguments XPlugins {num} d.

Record DataManager (num : Type) := {
  extensions : gmap string (ext_value num);
  ruc_market_active : option (RucMarket num);
  ruc_market_pending : option (RucMarket num);
}.

Record Simulator (num : Type) := {
  time_manager : TimeManager;
  data_manager : DataManager num;
}.

(** The Prescient options this module reads. *)
Record Options := {
  bidding_generator : string;
  ruc_horizon : Z;
  sced_horizon : Z;
  output_directory : string;
}.

(** [{'data_type': 'cost_curve', 'cost_curve_type': .., 'values': ..}] *)
Record cost_curve (num : Type) := {
  cost_curve_type : string;
  values : list (num * num);
}.

(** The attributes of a generator this module reads or writes: ['pg'] is a
    numeric time series, ['p_cost'] a cost curve (SCED) or a time series of
    cost curves (RUC). *)
Inductive attr (num : Type) :=
| NumSeries (vs : list num)
| CostCurve (c : cost_curve num)
| CostCurveSeries (cs : list (cost_curve num)).

(** A RUC or SCED instance: [instance.data['elements']['generator']]. *)
Record ModelData (num : Type) := {
  generator : gmap string (gmap string (attr num));
}.

(** The calls made to the external collaborators, with their arguments. *)
Inductive event (num : Type) :=
| stochastic_bidding (bidder : handle) (date : string)
| update_model (bidder : handle)
    (implemented_power_output implemented_shut_down implemented_start_up :
       gmap string (list num))
| pass_schedule_to_track (tracker m : handle)
    (market_signals : gmap string (list num))
    (last_implemented_time_step : Z) (date : option string) (hour : Z)
    (projection : bool)
| get_last_delivered_power (tracker : handle) (generator : string)
| write_results (obj : handle) (path : string).
Arguments stochastic_bidding {num} bidder date.
Arguments get_last_delivered_power {num} tracker generator.
Arguments write_results {num} obj path.

(** Everything a callback can read or change. [instance] is the RUC or SCED
    object handed to the callback, [observed_thermal_dispatch_levels] the
    field of [ops_stats] it writes. *)
Record state (num : Type) := {
  simulator : Simulator num;
  instance : ModelData num;
  observed_thermal_dispatch_levels : gmap string num;
  calls : list (event num);
}.

(** What the collaborators answer, given the calls made so far. *)
Class Collaborators (num : Type) := {
  stochastic_bidding_returns : handle → string → list (event num) → bids num;
  get_last_delivered_power_returns : handle → string → list (event num) → num;
  tracker_model : handle → handle;
}.

Unset Implicit Arguments.

(** ** The monad of the methods: state and exceptions *)

Definition M (num A : Type) : Type := state num → result A * state num.

Section Monad.

Context {num : Type}.

Definition ret {A} (a : A) : M num A := λ s, (Ok a, s).

Definition raise {A} (e : exn) : M num A := λ s, (Raise e, s).

Definition bind {A B} (c : M num A) (k : A → M num B) : M num B :=
  λ s, match c s with
       | (Ok a, s') => k a s'
       | (Raise e, s') => (Raise e, s')
       end.

Definition gets {A} (f : state num → A) : M num A := λ s, (Ok (f s), s).

Definition modify (f : state num → state num) : M num unit := λ s, (Ok tt, f s).

Definition from_option {A} (e : exn) (o : option A) : M num A :=
  match o with
  | Some a => ret a
  | None => raise e
  end.

End Monad.

Notation "x <~ c ; k" := (bind c (λ x, k))
  (at level 20, c at level 100, k at level 200, right associativity,
   format "'[v' x  <~  c ; '/' k ']'").
Notation "c ;> k" := (bind c (λ _, k))
  (at level 100, k at level 200, right associativity,
   format "'[v' c  ;> '/' k ']'").

(** [for x in l: acc = body(acc, x)] *)
Fixpoint for_in {num A B} (l : list A) (body : B → A → M num B) (acc : B) : M num B :=
  match l with
  | [] => ret acc
  | x :: l' => acc' <~ body acc x ; for_in l' body acc'
  end.

(** [[f(x) for x in l]] *)
Fixpoint comprehension {num A B} (f : A → M num B) (l : list A) : M num (list B) :=
  match l with
  | [] => ret []
  | x :: l' => y <~ f x; ys <~ comprehension f l'; ret (y :: ys)
  end.

(** [l.append(x)] *)
Definition list_append {A} (l : list A) (x : A) : list A := (l ++ [x])%list.

(** [range(a, b)] *)
Definition range (a b : Z) : list Z := seqZ a (b - a).

(** [l[i]], with Python's negative indices. *)
Definition list_getitem {A} (l : list A) (i : Z) : option A :=
  if 0 <=? i then l !! Z.to_nat i
  else if 0 <=? Z.of_nat (length l) + i then l !! Z.to_nat (Z.of_nat (length l) + i)
  else None.

(** ** Name resolution

    A bare name in a method body that is neither a local nor a parameter is
    looked up in the module's global namespace, then among the builtins (a
    class body is not an enclosing scope of its methods). The module binds
    three names: the two imports and the class. The name is resolved before
    the arguments are looked at; none of the three names can be called with
    the arguments the methods pass, hence the [TypeError]. *)
Definition module_globals : list string :=
  ["Option"; "prescient"; "DoubleLoopCoordinator"].

Definition call_global {num A Args} (name : string) (args : Args) : M num A :=
  if bool_decide (name ∈ module_globals) then raise TypeError
  else raise (NameError name).

(** ** Reading and writing the shared objects *)

Section Store.

Context {num : Type}.

Definition the_extensions (s : state num) : gmap string (ext_value num) :=
  extensions (data_manager (simulator s)).

Definition with_extensions
    (f : gmap string (ext_value num) → gmap string (ext_value num))
    (s : state num) : state num :=
  let sim := simulator s in
  let dm := data_manager sim in
  {| simulator :=
       {| time_manager := time_manager sim;
          data_manager :=
            {| extensions := f (extensions dm);
               ruc_market_active := ruc_market_active dm;
               ruc_market_pending := ruc_market_pending dm |} |};
     instance := instance s;
     observed_thermal_dispatch_levels := observed_thermal_dispatch_levels s;
     calls := calls s |}.

Definition with_instance (f : ModelData num → ModelData num) (s : state num) : state num :=
  {| simulator := simulator s;
     instance := f (instance s);
     observed_thermal_dispatch_levels := observed_thermal_dispatch_levels s;
     calls := calls s |}.

Definition with_levels (f : gmap string num → gmap string num) (s : state num) : state num :=
  {| simulator := simulator s;
     instance := instance s;
     observed_thermal_dispatch_levels := f (observed_thermal_dispatch_levels s);
     calls := calls s |}.

Definition with_calls (es : list (event num)) (s : state num) : state num :=
  {| simulator := simulator s;
     instance := instance s;
     observed_thermal_dispatch_levels := observed_thermal_dispatch_levels s;
     calls := (calls s ++ es)%list |}.

Definition with_call (e : event num) (s : state num) : state num :=
  with_calls [e] s.

(** [simulator.data_manager.extensions[k]] *)
Definition extensions_getitem (k : string) : M num (ext_value num) :=
  ext <~ gets the_extensions;
  from_option KeyError (ext !! k).

(** [simulator.data_manager.extensions[k] = v] *)
Definition extensions_setitem (k : string) (v : ext_value num) : M num unit :=
  modify (with_extensions <[k := v]>).

(** [simulator.data_manager.extensions.setdefault(k, v)] *)
Definition extensions_setdefault (k : string) (v : ext_value num) : M num (ext_value num) :=
  ext <~ gets the_extensions;
  match ext !! k with
  | Some x => ret x
  | None => (extensions_setitem k v ;> ret v)
  end.

(** [d[col] = v] on the dictionary object stored under [key], for the
    objects this module creates there; an entry of another shape is a
    [TypeError] in the model. *)
Definition results_setitem (key col : string) (v : list (string + num)) : M num unit :=
  x <~ extensions_getitem key;
  match x with
  | XResults d => extensions_setitem key (XResults (PyDict.set d col v))
  | _ => raise TypeError
  end.

Definition plugins_setitem (key name : string) (o : handle) : M num unit :=
  x <~ extensions_getitem key;
  match x with
  | XPlugins d => extensions_setitem key (XPlugins (PyDict.set d name o))
  | _ => raise TypeError
  end.

(** [simulator.data_manager.extensions['plugin_objects'][name]] *)
Definition plugin_object (name : string) : M num handle :=
  x <~ extensions_getitem "plugin_objects";
  match x with
  | XPlugins d => from_option KeyError (PyDict.get d name)
  | XNone => raise TypeError
  | XBids _ | XResults _ => raise KeyError
  end.

(** [simulator.time_manager.current_time.f] *)
Definition current_time_attr {A} (f : Time → A) : M num A :=
  now <~ gets (λ s, current_time (time_manager (simulator s)));
  from_option AttributeError (f <$> now).

(** [simulator.data_manager.ruc_market_active.thermal_gen_cleared_DA] *)
Definition active_ruc_dispatch : M num (gmap (string * Z) num) :=
  m <~ gets (λ s, ruc_market_active (data_manager (simulator s)));
  from_option AttributeError (@thermal_gen_cleared_DA num <$> m).

(** [instance.data['elements']['generator'][gen_name]] *)
Definition generator_getitem (gen_name : string) : M num (gmap string (attr num)) :=
  g <~ gets (λ s, generator (instance s));
  from_option KeyError (g !! gen_name).

(** [gen_dict[k] = v], where [gen_dict] is the generator's dictionary inside
    the instance. *)
Definition gen_dict_setitem (gen_name k : string) (v : attr num) : M num unit :=
  modify (with_instance
            (λ md, {| generator := alter <[k := v]> gen_name (generator md) |})).

(** [bids[t][gen_name].items()] for a bid set. *)
Definition bid_items (b : bids num) (t : Z) (gen_name : string) : M num (list (num * num)) :=
  bt <~ from_option KeyError (b !! t);
  from_option KeyError (bt !! gen_name).

(** The same on a value read back from the extensions, which may be [None]
    or another dictionary. *)
Definition value_bid_items (v : ext_value num) (t : Z) (gen_name : string)
  : M num (list (num * num)) :=
  match v with
  | XBids b => bid_items b t gen_name
  | XNone => raise TypeError
  | XPlugins _ | XResults _ => raise KeyError
  end.

(** A call to a collaborator that returns nothing of use. *)
Definition call (e : event num) : M num unit := modify (with_call e).

(** A call whose answer is used. *)
Definition call_returning {A} (e : event num) (answer : list (event num) → A) : M num A :=
  r <~ gets (λ s, answer (calls s));
  call e ;>
  ret r.

End Store.

(** ** The methods of [DoubleLoopCoordinator] *)

Section Methods.

Context {num : Type} {collaborators : Collaborators num}.
Variable self : DoubleLoopCoordinator.

Definition initialize_customized_results (options : Options) : M num unit :=
  extensions_setitem "customized_results" (XResults []) ;>
  let customized_results := "customized_results" in
  results_setitem customized_results "Generator" [] ;>
  results_setitem customized_results "Date" [] ;>
  results_setitem customized_results "Hour" [] ;>
  results_setitem customized_results "State" [] ;>
  results_setitem customized_results "RUC Schedule" [] ;>
  results_setitem customized_results "SCED Schedule" [] ;>
  results_setitem customized_results "Power Output" [].

Definition initialize_bidding_object (options : Options) : M num unit :=
  extensions_setdefault "plugin_objects" (XPlugins []) ;>
  plugins_setitem "plugin_objects" "bidder" (bidder self).

Definition initialize_tracking_object (options : Options) : M num unit :=
  extensions_setdefault "plugin_objects" (XPlugins []) ;>
  plugins_setitem "plugin_objects" "tracker" (tracker self).

Definition piecewise (p_cost : list (num * num)) : cost_curve num :=
  {| cost_curve_type := "piecewise"; values := p_cost |}.

(** The RUC instance is [instance] of the state. *)
Definition _pass_DA_bid_to_prescient (options : Options) (bids : bids num) : M num unit :=
  let gen_name := bidding_generator options in
  generator_getitem gen_name ;>
  p_cost <~ comprehension (λ t, bid_items bids t gen_name)
              (range 0 (ruc_horizon options));
  curves <~ comprehension
              (λ t, c <~ from_option IndexError (list_getitem p_cost t);
                    ret (piecewise c))
              (range 0 (ruc_horizon options));
  gen_dict_setitem gen_name "p_cost" (CostCurveSeries curves).

Definition assemble_project_tracking_signal (options : Options) (hour : Z)
  : M num (gmap string (list num)) :=
  let gen_name := bidding_generator options in
  current_ruc_dispatch <~ active_ruc_dispatch;
  for_in (range hour (hour + sced_horizon options))
    (λ market_signals t,
       dispatch <~ (if 23 <=? t
                    then from_option KeyError (current_ruc_dispatch !! (gen_name, 23))
                    else from_option KeyError (current_ruc_dispatch !! (gen_name, t)));
       ret (alter (λ l, list_append l dispatch) gen_name market_signals))
    {[ gen_name := [] ]}.

(** The methods [project_tracking_trajectory] and
    [get_full_projected_trajectory] are only ever named without [self]. *)
Definition bid_into_DAM (options : Options) (ruc_date : string) (ruc_hour : Z)
  : M num unit :=
  is_first_day <~ gets (λ s, bool_decide (current_time (time_manager (simulator s)) = None));
  bidder <~ plugin_object "bidder";
  (if negb is_first_day then
     full_projected_trajectory <~
       call_global (A := gmap string (gmap string (list num)))
         "project_tracking_trajectory" (options, ruc_hour);
     power <~ from_option KeyError (full_projected_trajectory !! "power");
     shut_down <~ from_option KeyError (full_projected_trajectory !! "shut_down");
     start_up <~ from_option KeyError (full_projected_trajectory !! "start_up");
     call (update_model bidder power shut_down start_up)
   else ret tt) ;>
  bids <~ call_returning (stochastic_bidding bidder ruc_date)
            (stochastic_bidding_returns bidder ruc_date);
  (if is_first_day then
     extensions_setitem "current_bids" (XBids bids) ;>
     extensions_setitem "next_bids" (XBids bids)
   else
     extensions_setitem "next_bids" (XBids bids)) ;>
  call_global "_pass_DA_bid_to_prescient" (options, bids).

(** The SCED instance is [instance] of the state. *)
Definition pass_RT_bid_to_prescient (options : Options) (bids : ext_value num) (hour : Z)
  : M num unit :=
  let gen_name := bidding_generator options in
  generator_getitem gen_name ;>
  p_cost <~ value_bid_items bids hour gen_name;
  gen_dict_setitem gen_name "p_cost" (CostCurve (piecewise p_cost)).

Definition bid_into_RTM (options : Options) : M num unit :=
  hour <~ current_time_attr hour;
  bids <~ extensions_getitem "current_bids";
  call_global "pass_RT_bid_to_prescient" (options, bids, hour).

(** [sced_instance.data['elements']['generator'][gen_name]['pg']['values']] *)
Definition sced_pg_values (gen_name : string) : M num (list num) :=
  gen_dict <~ generator_getitem gen_name;
  pg <~ from_option KeyError (gen_dict !! "pg");
  match pg with
  | NumSeries vs => ret vs
  | _ => raise TypeError
  end.

Definition assemble_sced_tracking_market_signals (options : Options) (hour : Z)
  : M num (gmap string (list num)) :=
  let gen_name := bidding_generator options in
  sced_dispatch <~ sced_pg_values gen_name;
  current_ruc_dispatch <~ active_ruc_dispatch;
  ruc_market_pending <~ gets (λ s, ruc_market_pending (data_manager (simulator s)));
  (* bound only when a RUC is pending *)
  let next_ruc_dispatch := @thermal_gen_cleared_DA num <$> ruc_market_pending in
  let pending_is_not_None := bool_decide (is_Some ruc_market_pending) in
  first <~ from_option IndexError (list_getitem sced_dispatch 0);
  for_in (range (hour + 1) (hour + sced_horizon options))
    (λ market_signals t,
       dispatch <~
         (if (23 <? t) && pending_is_not_None then
            let t := t `mod` 24 in
            next_ruc_dispatch <~
              from_option (UnboundLocalError "next_ruc_dispatch") next_ruc_dispatch;
            from_option KeyError (next_ruc_dispatch !! (gen_name, t))
          else if (23 <? t) && negb pending_is_not_None then
            from_option IndexError (list_getitem sced_dispatch (t - hour))
          else
            from_option KeyError (current_ruc_dispatch !! (gen_name, t)));
       ret (alter (λ l, list_append l dispatch) gen_name market_signals))
    {[ gen_name := [first] ]}.

Definition track_sced_signal (options : Options) : M num unit :=
  current_date <~ current_time_attr date;
  current_hour <~ current_time_attr hour;
  tracker <~ plugin_object "tracker";
  market_signals <~
    call_global (A := gmap string (list num))
      "assemble_sced_tracking_market_signals" (options, current_hour);
  call (pass_schedule_to_track tracker (tracker_model tracker) market_signals 0
          (Some current_date) current_hour false).

Definition update_observed_thermal_dispatch (options : Options) : M num unit :=
  tracker <~ plugin_object "tracker";
  let g := bidding_generator options in
  power <~ call_returning (get_last_delivered_power tracker g)
             (get_last_delivered_power_returns tracker g);
  modify (with_levels <[g := power]>).

Definition after_ruc_activation (options : Options) : M num unit :=
  current_bids <~ extensions_getitem "next_bids";
  extensions_setitem "current_bids" current_bids ;>
  extensions_setitem "next_bids" XNone.

(** [extensions['plugin_objects'].items()]; [None] has no [items], the
    entries of the other dictionaries have no [write_results]. *)
Definition plugin_items : M num (list (string * handle)) :=
  x <~ extensions_getitem "plugin_objects";
  match x with
  | XPlugins d => ret (PyDict.items d)
  | XNone => raise AttributeError
  | XBids b => if bool_decide (b = ∅) then ret [] else raise AttributeError
  | XResults d => if bool_decide (d = []) then ret [] else raise AttributeError
  end.

Definition write_plugin_results (options : Options) : M num unit :=
  items <~ plugin_items;
  for_in items
    (λ _ '(key, plugins), call (write_results plugins (output_directory options)))
    tt.

(** What the simulator runs when it fires a registered method. The
    arguments that are objects ([simulator], the RUC or SCED instance,
    [ops_stats]) are in the state. *)
Definition run (m : method) (options : Options) (ruc_date : string) (ruc_hour : Z)
  : M num unit :=
  match m with
  | m_initialize_customized_results => initialize_customized_results options
  | m_initialize_bidding_object => initialize_bidding_object options
  | m_initialize_tracking_object => initialize_tracking_object options
  | m_bid_into_DAM => bid_into_DAM options ruc_date ruc_hour
  | m_bid_into_RTM => bid_into_RTM options
  | m_track_sced_signal => track_sced_signal options
  | m_update_observed_thermal_dispatch => update_observed_thermal_dispatch options
  | m_after_ruc_activation => after_ruc_activation options
  | m_write_plugin_results => write_plugin_results options
  end.

End Methods.

(** [f(options, ...)] for a registered bound method [f]. *)
Definition fire {num} {collaborators : Collaborators num} (f : bound_method)
    (options : Options) (ruc_date : string) (ruc_hour : Z) : M num unit :=
  run f.1 f.2 options ruc_date ruc_hour.

(** A firing of a callback by the simulator, with the arguments it passes. *)
Record firing := {
  fired : bound_method;
  with_options : Options;
  with_ruc_date : string;
  with_ruc_hour : Z;
}.

(** The state after a sequence of firings. An exception ends the callback it
    occurs in; the state it leaves is the one the next firing sees. *)
Definition simulate {num} {collaborators : Collaborators num}
    (fs : list firing) (s : state num) : state num :=
  foldl (λ s f, (fire (fired f) (with_options f) (with_ruc_date f) (with_ruc_hour f) s).2)
        s fs.

(** The three initialization callbacks, fired in registration order. *)
Definition initialization {num} {collaborators : Collaborators num}
    (self : DoubleLoopCoordinator) (options : Options) : M num unit :=
  for_in (registered_at Initialization (coordinator_callbacks self))
    (λ _ f, fire f options "" 0) tt.

(** ** Vocabulary of the properties *)

(** A computation leaves the ['plugin_objects'] entry of the extensions as
    it found it, whether it returns or raises. *)
Definition keeps_plugin_objects {num A} (c : M num A) : Prop :=
  ∀ s, the_extensions (c s).2 !! "plugin_objects" = the_extensions s !! "plugin_objects".

(** The ['plugin_objects'] entry holds the coordinator's bidder and tracker,
    and nothing else. *)
Definition holds_handles {num} (self : DoubleLoopCoordinator) (s : state num) : Prop :=
  the_extensions s !! "plugin_objects" =
    Some (XPlugins [("bidder", bidder self); ("tracker", tracker self)]).

(** ** Concrete data *)

Module Example.

Definition gen : string := "102_STEAM_3".

Definition options : Options :=
  {| bidding_generator := gen; ruc_horizon := 2; sced_horizon := 4;
     output_directory := "output" |}.

Definition coordinator : DoubleLoopCoordinator := {| bidder := 1%nat; tracker := 2%nat |}.

Definition day_bids : bids Z :=
  {[ 0 := {[ gen := [(0, 0); (50, 1200)] ]};
     1 := {[ gen := [(0, 0); (60, 1500)] ]} ]}.

Definition collaborators : Collaborators Z :=
  {| stochastic_bidding_returns := λ _ _ _, day_bids;
     get_last_delivered_power_returns := λ _ _ _, 55;
     tracker_model := λ t, t |}.

(** A cleared market that dispatches [base + t] at hour [t]. *)
Definition market (base : Z) : RucMarket Z :=
  {| thermal_gen_cleared_DA :=
       list_to_map ((λ t, ((gen, t), base + t)) <$> seqZ 0 24) |}.

Definition sced_instance : ModelData Z :=
  {| generator := {[ gen := {[ "pg" := NumSeries [7; 8; 9; 10] ]} ]} |}.

Definition make (now : option Time) (ext : gmap string (ext_value Z))
    (pending : option (RucMarket Z)) : state Z :=
  {| simulator :=
       {| time_manager := {| current_time := now |};
          data_manager :=
            {| extensions := ext;
               ruc_market_active := Some (market 100);
               ruc_market_pending := pending |} |};
     instance := sced_instance;
     observed_thermal_dispatch_levels := ∅;
     calls := [] |}.

Definition plugin_objects : ext_value Z :=
  XPlugins [("bidder", bidder coordinator); ("tracker", tracker coordinator)].

(** Before the first time step, right after initialization. *)
Definition first_day : state Z :=
  make None {[ "plugin_objects" := plugin_objects ]} None.

(** The first day-ahead bids are made and not yet activated. *)
Definition day_ahead_bid : state Z :=
  make None
       {[ "plugin_objects" := plugin_objects;
          "current_bids" := XBids day_bids;
          "next_bids" := XBids day_bids ]}
       None.

(** Hour 1 of a later day: the bids of the day are activated, those of the
    next day are still to be made. *)
Definition later_day : state Z :=
  make (Some {| date := "2020-07-11"; hour := 1 |})
       {[ "plugin_objects" := plugin_objects;
          "current_bids" := XBids day_bids;
          "next_bids" := XNone ]}
       None.

(** A time step without any bids. *)
Definition no_bids : state Z :=
  make (Some {| date := "2020-07-10"; hour := 0 |})
       {[ "plugin_objects" := plugin_objects ]} None.

(** No time step yet and no bids yet. *)
Definition before_first_bid : state Z := make None ∅ None.

End Example.

(** ** The tracker's projection

    [project_tracking_trajectory] and [get_full_projected_trajectory] read
    two attributes of the tracker and call two more of its methods. These
    calls are logged next to the state of the callbacks; what the tracker
    shows or answers may depend on every call made so far. *)

Inductive tracker_call :=
| clone_tracking_model (tracker : handle)
| clear_projection (tracker : handle).

#[global] Instance tracker_call_eq_dec : EqDecision tracker_call.
Proof. solve_decision. Defined.

Set Implicit Arguments.

Record projection_state (num : Type) := {
  callback_state : state num;
  tracker_calls : list tracker_call;
}.

(** [tracker.daily_stats] is iterated, [tracker.projection] is only
    indexed; both map a statistic to the series of each generator, a Python
    sequence that [+] concatenates. *)
Class TrackerAttributes (num : Type) := {
  daily_stats :
    handle → list (event num) → list tracker_call → PyDict.t (gmap string (list num));
  projection :
    handle → list (event num) → list tracker_call → gmap string (gmap string (list num));
  clone_tracking_model_returns :
    handle → list (event num) → list tracker_call → handle;
}.

Unset Implicit Arguments.

Definition MP (num A : Type) : Type :=
  projection_state num → result A * projection_state num.

Section ProjectionMonad.

Context {num : Type}.

Definition ret_p {A} (a : A) : MP num A := λ p, (Ok a, p).

Definition bind_p {A B} (c : MP num A) (k : A → MP num B) : MP num B :=
  λ p, match c p with
       | (Ok a, p') => k a p'
       | (Raise e, p') => (Raise e, p')
       end.

(** A computation of the callbacks, run on the callbacks' part of the state. *)
Definition lift {A} (c : M num A) : MP num A :=
  λ p, let '(r, s') := c (callback_state p) in
       (r, {| callback_state := s'; tracker_calls := tracker_calls p |}).

(** [tracker.attribute] *)
Definition tracker_attr {A} (attribute : list (event num) → list tracker_call → A)
  : MP num A :=
  λ p, (Ok (attribute (calls (callback_state p)) (tracker_calls p)), p).

(** [tracker.method()] *)
Definition tracker_call_returning {A} (e : tracker_call)
    (answer : list (event num) → list tracker_call → A) : MP num A :=
  λ p, (Ok (answer (calls (callback_state p)) (tracker_calls p)),
        {| callback_state := callback_state p;
           tracker_calls := (tracker_calls p ++ [e])%list |}).

(** [d.get(k)[gen_name]], where [o] is [d.get(k)]: indexing [None] is a
    [TypeError]. *)
Definition get_getitem {A} (o : option (gmap string A)) (gen_name : string) : MP num A :=
  match o with
  | None => λ p, (Raise TypeError, p)
  | Some d =>
      match d !! gen_name with
      | Some a => ret_p a
      | None => λ p, (Raise KeyError, p)
      end
  end.

End ProjectionMonad.

Notation "x <~~ c ; k" := (bind_p c (λ x, k))
  (at level 20, c at level 100, k at level 200, right associativity,
   format "'[v' x  <~~  c ; '/' k ']'").

(** [for x in l: acc = body(acc, x)] *)
Fixpoint for_in_p {num A B} (l : list A) (body : B → A → MP num B) (acc : B) : MP num B :=
  match l with
  | [] => ret_p acc
  | x :: l' => acc' <~~ body acc x ; for_in_p l' body acc'
  end.

Section Projection.

Context {num : Type} {collaborators : Collaborators num}
  {tracker_attributes : TrackerAttributes num}.

Definition get_full_projected_trajectory (options : Options)
  : MP num (gmap string (gmap string (list num))) :=
  tracker <~~ lift (plugin_object "tracker");
  stats <~~ tracker_attr (daily_stats tracker);
  full_projected_trajectory <~~
    for_in_p (PyDict.items stats).*1
      (λ full_projected_trajectory stat,
         let full_projected_trajectory :=
           <[stat := (∅ : gmap string (list num))]> full_projected_trajectory in
         let gen_name := bidding_generator options in
         stats <~~ tracker_attr (daily_stats tracker);
         daily <~~ get_getitem (PyDict.get stats stat) gen_name;
         projected <~~ tracker_attr (projection tracker);
         projected <~~ get_getitem (projected !! stat) gen_name;
         ret_p (alter <[gen_name := (daily ++ projected)%list]> stat
                  full_projected_trajectory))
      ∅;
  _ <~~ tracker_call_returning (clear_projection tracker) (λ _ _, tt);
  ret_p full_projected_trajectory.

Definition project_tracking_trajectory (options : Options) (ruc_hour : Z)
  : MP num (gmap string (gmap string (list num))) :=
  tracker <~~ lift (plugin_object "tracker");
  projection_m <~~
    tracker_call_returning (clone_tracking_model tracker)
      (clone_tracking_model_returns tracker);
  _ <~~ for_in_p (range ruc_hour 24)
          (λ _ hour,
             market_signals <~~
               lift (call_global (A := gmap string (list num))
                       "assemble_project_tracking_signal" (options, hour));
             lift (call (pass_schedule_to_track tracker projection_m market_signals 0
                           None hour true)))
          tt;
  lift (call_global "get_full_projected_trajectory" options).

End Projection.


(** A call that would make the tracker track a schedule or advance the
    bidder's model. *)
Definition advances_a_model {num} (e : event num) : bool :=
  match e with
  | update_model _ _ _ _ | pass_schedule_to_track _ _ _ _ _ _ _ => true
  | _ => false
  end.


(** A computation keeps [P] true of the state, whether it returns or
    raises. *)
Definition preserves {num A} (P : state num → Prop) (c : M num A) : Prop :=
  ∀ s, P s → P (c s).2.

(** The columns of the customized results, in the order they are created. *)
Definition customized_results_columns : list string :=
  ["Generator"; "Date"; "Hour"; "State"; "RUC Schedule"; "SCED Schedule";
   "Power Output"].

(** ** More concrete data *)

Module TrackerExample.

(** A tracker that has delivered two hours and projects one more, until its
    projection is cleared. *)
Definition tracker_attributes : TrackerAttributes Z :=
  {| daily_stats := λ _ _ _,
       [ ("power", {[ Example.gen := [50; 55] ]});
         ("shut_down", {[ Example.gen := [0; 0] ]});
         ("start_up", {[ Example.gen := [0; 1] ]}) ];
     projection := λ tr _ cs,
       if bool_decide (clear_projection tr ∈ cs) then ∅
       else {[ "power" := {[ Example.gen := [60] ]};
               "shut_down" := {[ Example.gen := [0] ]};
               "start_up" := {[ Example.gen := [0] ]} ]};
     clone_tracking_model_returns := λ tr _ _, S tr |}.

Definition projecting : projection_state Z :=
  {| callback_state := Example.later_day; tracker_calls := [] |}.

Definition cleared : projection_state Z :=
  {| callback_state := Example.later_day;
     tracker_calls := [clear_projection (tracker Example.coordinator)] |}.

Definition one_hour_options : Options :=
  {| bidding_generator := Example.gen; ruc_horizon := 2; sced_horizon := 1;
     output_directory := "output" |}.

(** Right after the initialization callbacks. *)
Definition initialized : state Z :=
  Example.make None
    {[ "customized_results" :=
         XResults ((λ c, (c, [])) <$> customized_results_columns);
       "plugin_objects" := Example.plugin_objects ]}
    None.

Definition a_day : list firing :=
  (λ m, {| fired := (Example.coordinator, m); with_options := Example.options;
           with_ruc_date := "2020-07-10"; with_ruc_hour := 12 |})
  <$> [m_bid_into_DAM; m_after_ruc_activation; m_bid_into_RTM; m_track_sced_signal;
       m_update_observed_thermal_dispatch; m_write_plugin_results].

End TrackerExample.

(** * Properties *)

(** ** Registration *)

Lemma callbacks_options (p : plugins) :
  callbacks (_register_custom_commandline_options p) = callbacks p.
Proof. reflexivity. Qed.

Lemma register_callbacks_spec (self : DoubleLoopCoordinator) (p : plugins) :
  callbacks (register_callbacks self p) = (callbacks p ++ coordinator_callbacks self)%list.
Proof.
  unfold register_callbacks, _register_after_simulation_callback,
    _register_after_ruc_activation_callbacks,
    _register_update_operations_stats_callbacks,
    _register_after_operations_callbacks,
    _register_before_operations_solve_callbacks,
    _register_before_ruc_solve_callbacks, _register_initialization_callbacks.
  cbn [register_callback callbacks]. rewrite callbacks_options.
  unfold coordinator_callbacks. by rewrite <- !app_assoc.
Qed.

Lemma coordinator_methods (self : DoubleLoopCoordinator) :
  (snd <$> coordinator_callbacks self) =
  (λ m, (self, m)) <$>
    [m_initialize_customized_results; m_initialize_bidding_object;
     m_initialize_tracking_object; m_bid_into_DAM; m_bid_into_RTM;
     m_track_sced_signal; m_update_observed_thermal_dispatch;
     m_after_ruc_activation; m_write_plugin_results].
Proof. reflexivity. Qed.

(** C5. Constructing a coordinator appends to the simulator's callbacks
    exactly: three initialization callbacks, then one callback at each of
    before-RUC-solve, before-operations-solve, after-operations,
    update-operations-stats, after-RUC-activation and after-simulation; no
    method is registered twice. *)
Theorem init_registers_fixed_lifecycle_callbacks (b t : handle) (p : plugins) :
  let self := (__init__ b t p).1 in
  let p' := (__init__ b t p).2 in
  let new := coordinator_callbacks self in
  bidder self = b ∧ tracker self = t ∧
  callbacks p' = (callbacks p ++ new)%list ∧
  registered_at Initialization new =
    [(self, m_initialize_customized_results);
     (self, m_initialize_bidding_object);
     (self, m_initialize_tracking_object)] ∧
  registered_at BeforeRucSolve new = [(self, m_bid_into_DAM)] ∧
  registered_at BeforeOperationsSolve new = [(self, m_bid_into_RTM)] ∧
  registered_at AfterOperations new = [(self, m_track_sced_signal)] ∧
  registered_at UpdateOperationsStats new = [(self, m_update_observed_thermal_dispatch)] ∧
  registered_at AfterRucActivation new = [(self, m_after_ruc_activation)] ∧
  registered_at AfterSimulation new = [(self, m_write_plugin_results)] ∧
  length new = 9%nat ∧
  NoDup (snd <$> new).
Proof.
  cbn zeta. unfold __init__. cbn [fst snd].
  set (self := {| bidder := b; tracker := t |}).
  repeat split; try reflexivity.
  - apply register_callbacks_spec.
  - rewrite coordinator_methods. apply NoDup_fmap_2.
    + intros m1 m2 E. by inversion E.
    + by apply (bool_decide_unpack _).
Qed.

(** ** The monad *)

Section MonadFacts.

Context {num : Type}.
Implicit Types s : state num.

(** An exception skips the rest of the method: nothing catches it. *)
Lemma raise_propagates {A B} (e : exn) (k : A → M num B) s :
  bind (raise e) k s = (Raise e, s).
Proof. reflexivity. Qed.

Lemma bind_ok {A B} (c : M num A) (k : A → M num B) s a s' :
  c s = (Ok a, s') → bind c k s = k a s'.
Proof. unfold bind. by intros ->. Qed.

Lemma bind_raise {A B} (c : M num A) (k : A → M num B) s e s' :
  c s = (Raise e, s') → bind c k s = (Raise e, s').
Proof. unfold bind. by intros ->. Qed.

Lemma extensions_getitem_Some (k : string) (v : ext_value num) s :
  the_extensions s !! k = Some v → extensions_getitem k s = (Ok v, s).
Proof. unfold extensions_getitem, bind, gets. cbn. by intros ->. Qed.

Lemma extensions_getitem_None (k : string) s :
  the_extensions s !! k = None → extensions_getitem (num := num) k s = (Raise KeyError, s).
Proof. unfold extensions_getitem, bind, gets. cbn. by intros ->. Qed.

Lemma current_time_attr_Some {A} (f : Time → A) (now : Time) s :
  current_time (time_manager (simulator s)) = Some now →
  current_time_attr f s = (Ok (f now), s).
Proof. unfold current_time_attr, bind, gets. cbn. by intros ->. Qed.

Lemma current_time_attr_None {A} (f : Time → A) s :
  current_time (time_manager (simulator s)) = None →
  current_time_attr f s = (Raise AttributeError, s).
Proof. unfold current_time_attr, bind, gets. cbn. by intros ->. Qed.

Lemma with_calls_nil s : with_calls [] s = s.
Proof. destruct s. unfold with_calls. cbn. by rewrite app_nil_r. Qed.

Lemma with_calls_app (es1 es2 : list (event num)) s :
  with_calls es2 (with_calls es1 s) = with_calls (es1 ++ es2) s.
Proof. unfold with_calls. cbn. by rewrite app_assoc. Qed.

Lemma the_extensions_with_extensions f s :
  the_extensions (with_extensions f s) = f (the_extensions s).
Proof. reflexivity. Qed.

Lemma the_extensions_with_calls (es : list (event num)) s :
  the_extensions (with_calls es s) = the_extensions s.
Proof. reflexivity. Qed.

End MonadFacts.

(** ** Activation of the day-ahead bids *)

(** C1. When the extensions hold a value under ['next_bids'],
    [after_ruc_activation] returns normally, stores that value under
    ['current_bids'] and stores [None] under ['next_bids']; nothing else
    changes. *)
Theorem after_ruc_activation_promotes_next_bids {num}
    (options : Options) (s : state num) (v : ext_value num) :
  the_extensions s !! "next_bids" = Some v →
  ∃ s',
    after_ruc_activation options s = (Ok tt, s') ∧
    the_extensions s' !! "current_bids" = Some v ∧
    the_extensions s' !! "next_bids" = Some XNone ∧
    s' = with_extensions (λ ext, <["next_bids" := XNone]> (<["current_bids" := v]> ext)) s.
Proof.
  intros Hnext. eexists. split; [| split; [| split]]; [| | | reflexivity].
  - unfold after_ruc_activation.
    rewrite (bind_ok _ _ _ _ _ (extensions_getitem_Some _ _ _ Hnext)).
    reflexivity.
  - rewrite the_extensions_with_extensions.
    rewrite lookup_insert_ne by done. apply lookup_insert_eq.
  - rewrite the_extensions_with_extensions. apply lookup_insert_eq.
Qed.

(** ** Real-time bidding without current bids *)

(** C6, as amended. When the current time is set and the extensions have no
    ['current_bids'] entry, [bid_into_RTM] ends with a [KeyError] and leaves
    the whole state, the extensions included, as it was; the error reaches
    the caller, whose continuation is skipped. *)
Theorem bid_into_RTM_missing_current_bids {num}
    (options : Options) (s : state num) (now : Time) :
  current_time (time_manager (simulator s)) = Some now →
  the_extensions s !! "current_bids" = None →
  bid_into_RTM options s = (Raise KeyError, s) ∧
  ∀ (B : Type) (caller : unit → M num B),
    bind (bid_into_RTM options) caller s = (Raise KeyError, s).
Proof.
  intros Hnow Hbids.
  assert (bid_into_RTM options s = (Raise KeyError, s)) as E.
  { unfold bid_into_RTM.
    rewrite (bind_ok _ _ _ _ _ (current_time_attr_Some _ _ _ Hnow)).
    by rewrite (bind_raise _ _ _ _ _ (extensions_getitem_None _ _ Hbids)). }
  split; [exact E |]. intros B caller. by apply bind_raise.
Qed.

(** The sibling of C6 for the activation callback: without ['next_bids'] it
    ends with a [KeyError] and changes nothing. *)
Lemma after_ruc_activation_missing_next_bids {num} (options : Options) (s : state num) :
  the_extensions s !! "next_bids" = None →
  after_ruc_activation options s = (Raise KeyError, s).
Proof.
  intros Hnext. unfold after_ruc_activation.
  by rewrite (bind_raise _ _ _ _ _ (extensions_getitem_None _ _ Hnext)).
Qed.

(** [bid_into_RTM] never changes the state. *)
Lemma bid_into_RTM_state {num} (options : Options) (s : state num) :
  (bid_into_RTM options s).2 = s.
Proof.
  unfold bid_into_RTM, current_time_attr, extensions_getitem, bind, gets. cbn.
  destruct (current_time _); cbn; [| done].
  by destruct (the_extensions s !! "current_bids").
Qed.

(** ** Writing the results *)

Lemma for_in_write_results {num} (path : string) (d : list (string * handle))
    (s : state num) :
  for_in d (λ _ '(key, plugins), call (write_results plugins path)) tt s =
    (Ok tt, with_calls ((λ kv, write_results kv.2 path) <$> d) s).
Proof.
  revert s. induction d as [| [key plugins] d IH]; intros s; cbn.
  - by rewrite with_calls_nil.
  - rewrite IH. unfold with_call. by rewrite with_calls_app.
Qed.

(** C8. When ['plugin_objects'] holds the dictionary [d],
    [write_plugin_results] returns normally after calling
    [write_results(path = options.output_directory)] on every object of [d],
    once each and in the order of the dictionary, and does nothing else. With
    the dictionary left by the initialization these are the bidder and the
    tracker. *)
Theorem write_plugin_results_calls_every_plugin {num}
    (options : Options) (s : state num) (d : PyDict.t handle) :
  the_extensions s !! "plugin_objects" = Some (XPlugins d) →
  write_plugin_results options s =
    (Ok tt, with_calls ((λ kv, write_results kv.2 (output_directory options)) <$> d) s) ∧
  (∀ self, d = [("bidder", bidder self); ("tracker", tracker self)] →
     calls (write_plugin_results options s).2 =
       (calls s ++ [write_results (bidder self) (output_directory options);
                    write_results (tracker self) (output_directory options)])%list).
Proof.
  intros Hd.
  assert (write_plugin_results options s =
    (Ok tt, with_calls ((λ kv, write_results kv.2 (output_directory options)) <$> d) s)) as E.
  { unfold write_plugin_results, plugin_items.
    rewrite (bind_ok _ _ _ _ _ (bind_ok _ _ _ _ _ (extensions_getitem_Some _ _ _ Hd))).
    apply for_in_write_results. }
  split; [exact E |]. intros self ->. by rewrite E.
Qed.

(** ** The plugin handles *)

Create HintDb keeps.

Section Keeps.

Context {num : Type} {collaborators : Collaborators num}.

Lemma keeps_ret {A} (a : A) : keeps_plugin_objects (ret (num := num) a).
Proof. by intros s. Qed.

Lemma keeps_raise {A} (e : exn) : keeps_plugin_objects (raise (num := num) (A := A) e).
Proof. by intros s. Qed.

Lemma keeps_gets {A} (f : state num → A) : keeps_plugin_objects (gets f).
Proof. by intros s. Qed.

Lemma keeps_from_option {A} (e : exn) (o : option A) :
  keeps_plugin_objects (from_option (num := num) e o).
Proof. by destruct o. Qed.

Lemma keeps_bind {A B} (c : M num A) (k : A → M num B) :
  keeps_plugin_objects c → (∀ a, keeps_plugin_objects (k a)) →
  keeps_plugin_objects (bind c k).
Proof.
  intros Hc Hk s. unfold bind. specialize (Hc s).
  destruct (c s) as [[a | e] s']; cbn in *; [| done].
  by rewrite Hk.
Qed.

Lemma keeps_call_global {A Args} (name : string) (args : Args) :
  keeps_plugin_objects (call_global (num := num) (A := A) name args).
Proof. unfold call_global. by case_bool_decide. Qed.

Lemma keeps_call (e : event num) : keeps_plugin_objects (call e).
Proof. by intros s. Qed.

Lemma keeps_with_levels f : keeps_plugin_objects (modify (with_levels (num := num) f)).
Proof. by intros s. Qed.

Lemma keeps_with_instance f : keeps_plugin_objects (modify (with_instance (num := num) f)).
Proof. by intros s. Qed.

Lemma keeps_extensions_setitem (k : string) (v : ext_value num) :
  k ≠ "plugin_objects" → keeps_plugin_objects (extensions_setitem k v).
Proof.
  intros Hk s.
  change (<[k := v]> (the_extensions s) !! "plugin_objects" =
          the_extensions s !! "plugin_objects").
  by apply lookup_insert_ne.
Qed.

Lemma keeps_for_in {A B} (l : list A) (body : B → A → M num B) (acc : B) :
  (∀ b a, keeps_plugin_objects (body b a)) → keeps_plugin_objects (for_in l body acc).
Proof.
  intros Hbody. revert acc. induction l as [| x l IH]; intros acc; cbn.
  - apply keeps_ret.
  - apply keeps_bind; auto.
Qed.

Hint Resolve keeps_ret keeps_raise keeps_gets keeps_from_option keeps_call_global
  keeps_call keeps_with_levels keeps_with_instance keeps_for_in : keeps.

Ltac keeps :=
  repeat first
    [ apply keeps_bind; [| intros ?]
    | apply keeps_extensions_setitem; discriminate
    | solve [auto with keeps]
    | match goal with
      | |- keeps_plugin_objects (match ?x with _ => _ end) => destruct x
      | |- keeps_plugin_objects (if ?b then _ else _) => destruct b
      end ].

Lemma keeps_extensions_getitem (k : string) :
  keeps_plugin_objects (extensions_getitem (num := num) k).
Proof. unfold extensions_getitem. keeps. Qed.

Hint Resolve keeps_extensions_getitem : keeps.

Lemma keeps_results_setitem (key col : string) (v : list (string + num)) :
  key ≠ "plugin_objects" → keeps_plugin_objects (results_setitem key col v).
Proof.
  intros Hkey. unfold results_setitem. keeps.
  by apply keeps_extensions_setitem.
Qed.

Lemma keeps_plugin_object (name : string) :
  keeps_plugin_objects (plugin_object (num := num) name).
Proof. unfold plugin_object. keeps. Qed.

Lemma keeps_current_time_attr {A} (f : Time → A) :
  keeps_plugin_objects (current_time_attr (num := num) f).
Proof. unfold current_time_attr. keeps. Qed.

Lemma keeps_call_returning {A} (e : event num) (answer : list (event num) → A) :
  keeps_plugin_objects (call_returning e answer).
Proof. unfold call_returning. keeps. Qed.

Hint Resolve keeps_plugin_object keeps_current_time_attr keeps_call_returning : keeps.

Lemma keeps_initialize_customized_results (options : Options) :
  keeps_plugin_objects (initialize_customized_results (num := num) options).
Proof.
  unfold initialize_customized_results.
  repeat (apply keeps_bind; [| intros _]);
    (apply keeps_extensions_setitem || apply keeps_results_setitem); discriminate.
Qed.

Lemma keeps_bid_into_DAM (options : Options) (ruc_date : string) (ruc_hour : Z) :
  keeps_plugin_objects (bid_into_DAM options ruc_date ruc_hour).
Proof. unfold bid_into_DAM. keeps. Qed.

Lemma keeps_bid_into_RTM (options : Options) :
  keeps_plugin_objects (bid_into_RTM (num := num) options).
Proof. unfold bid_into_RTM. keeps. Qed.

Lemma keeps_track_sced_signal (options : Options) :
  keeps_plugin_objects (track_sced_signal options).
Proof. unfold track_sced_signal. keeps. Qed.

Lemma keeps_update_observed_thermal_dispatch (options : Options) :
  keeps_plugin_objects (update_observed_thermal_dispatch options).
Proof. unfold update_observed_thermal_dispatch. keeps. Qed.

Lemma keeps_after_ruc_activation (options : Options) :
  keeps_plugin_objects (after_ruc_activation (num := num) options).
Proof. unfold after_ruc_activation. keeps. Qed.

Lemma keeps_write_plugin_results (options : Options) :
  keeps_plugin_objects (write_plugin_results (num := num) options).
Proof.
  unfold write_plugin_results, plugin_items. keeps.
  all: apply keeps_for_in; intros _ [key plugins]; apply keeps_call.
Qed.

(** Every callback but the two that install the handles leaves
    ['plugin_objects'] alone, from any state and however it ends. *)
Lemma run_keeps_plugin_objects (self : DoubleLoopCoordinator) (m : method)
    (options : Options) (ruc_date : string) (ruc_hour : Z) :
  m ≠ m_initialize_bidding_object → m ≠ m_initialize_tracking_object →
  keeps_plugin_objects (run self m options ruc_date ruc_hour).
Proof.
  intros Hb Ht. destruct m; cbn; try done.
  - apply keeps_initialize_customized_results.
  - apply keeps_bid_into_DAM.
  - apply keeps_bid_into_RTM.
  - apply keeps_track_sced_signal.
  - apply keeps_update_observed_thermal_dispatch.
  - apply keeps_after_ruc_activation.
  - apply keeps_write_plugin_results.
Qed.

End Keeps.

Section Handles.

Context {num : Type} {collaborators : Collaborators num}.
Variable self : DoubleLoopCoordinator.
Implicit Types s : state num.

Lemma lookup_with_insert (k : string) (v : ext_value num) s :
  the_extensions (with_extensions <[k := v]> s) !! k = Some v.
Proof. rewrite the_extensions_with_extensions. apply lookup_insert_eq. Qed.

Lemma results_setitem_ok (key col : string) (v : list (string + num)) d s :
  the_extensions s !! key = Some (XResults d) →
  results_setitem key col v s =
    (Ok tt, with_extensions <[key := XResults (PyDict.set d col v)]> s).
Proof.
  intros Hd. unfold results_setitem.
  by rewrite (bind_ok _ _ _ _ _ (extensions_getitem_Some _ _ _ Hd)).
Qed.

Lemma initialize_customized_results_ok (options : Options) s :
  ∃ s', initialize_customized_results options s = (Ok tt, s') ∧
        the_extensions s' !! "plugin_objects" = the_extensions s !! "plugin_objects".
Proof.
  assert (∃ s', initialize_customized_results options s = (Ok tt, s')) as [s' E].
  { eexists. unfold initialize_customized_results.
    unfold bind at 1. cbn [extensions_setitem modify].
    do 6 (erewrite (bind_ok (results_setitem _ _ _));
          [| apply results_setitem_ok, lookup_with_insert]).
    erewrite results_setitem_ok by apply lookup_with_insert.
    reflexivity. }
  exists s'. split; [exact E |].
  rewrite <- (keeps_initialize_customized_results (num := num) options s).
  by rewrite E.
Qed.

Lemma install_handle (name : string) (o : handle) d s :
  the_extensions s !! "plugin_objects" = Some (XPlugins d) →
  (extensions_setdefault "plugin_objects" (XPlugins []) ;>
   plugins_setitem "plugin_objects" name o) s =
    (Ok tt, with_extensions <["plugin_objects" := XPlugins (PyDict.set d name o)]> s).
Proof.
  intros Hd. unfold extensions_setdefault, plugins_setitem.
  unfold bind at 1 2, gets. cbn [fst snd]. rewrite Hd. cbn [ret].
  by rewrite (bind_ok _ _ _ _ _ (extensions_getitem_Some _ _ _ Hd)).
Qed.

Lemma install_first_handle (name : string) (o : handle) s :
  the_extensions s !! "plugin_objects" = None →
  ∃ s', (extensions_setdefault "plugin_objects" (XPlugins []) ;>
         plugins_setitem "plugin_objects" name o) s = (Ok tt, s') ∧
        the_extensions s' !! "plugin_objects" = Some (XPlugins [(name, o)]).
Proof.
  intros Hd. unfold extensions_setdefault, plugins_setitem.
  unfold bind at 1 2, gets. cbn [fst snd]. rewrite Hd.
  unfold bind at 1. cbn [extensions_setitem modify ret].
  erewrite bind_ok by apply extensions_getitem_Some, lookup_with_insert.
  eexists. split; [reflexivity |]. apply lookup_with_insert.
Qed.

(** The three initialization callbacks, from extensions without
    ['plugin_objects']. *)
Lemma initialization_installs_handles (options : Options) s :
  the_extensions s !! "plugin_objects" = None →
  ∃ s', initialization self options s = (Ok tt, s') ∧ holds_handles self s'.
Proof.
  intros Hfresh. unfold initialization.
  change (registered_at Initialization (coordinator_callbacks self))
    with [(self, m_initialize_customized_results);
          (self, m_initialize_bidding_object);
          (self, m_initialize_tracking_object)].
  cbn [for_in fire run fst snd].
  destruct (initialize_customized_results_ok options s) as (s1 & E1 & H1).
  rewrite (bind_ok _ _ _ _ _ E1). rewrite Hfresh in H1.
  destruct (install_first_handle "bidder" (bidder self) s1 H1) as (s2 & E2 & H2).
  unfold initialize_bidding_object. rewrite (bind_ok _ _ _ _ _ E2).
  unfold initialize_tracking_object.
  rewrite (bind_ok _ _ _ _ _ (install_handle "tracker" (tracker self) _ _ H2)).
  eexists. split; [reflexivity |]. apply lookup_with_insert.
Qed.

(** Installing a handle again changes nothing. *)
Lemma reinstall_keeps_handles (name : string) (o : handle) s :
  holds_handles self s →
  PyDict.get [("bidder", bidder self); ("tracker", tracker self)] name = Some o →
  holds_handles self
    ((extensions_setdefault "plugin_objects" (XPlugins []) ;>
      plugins_setitem "plugin_objects" name o) s).2.
Proof.
  intros Hs Hname. rewrite (install_handle name o _ s Hs). cbn [snd].
  unfold holds_handles. rewrite lookup_with_insert. do 2 f_equal.
  cbn in Hname |- *.
  repeat case_decide; simplify_eq; done.
Qed.

(** The handles survive every callback of the coordinator. *)
Lemma run_keeps_handles (m : method) (options : Options) (ruc_date : string)
    (ruc_hour : Z) s :
  holds_handles self s → holds_handles self (run self m options ruc_date ruc_hour s).2.
Proof.
  intros Hs.
  destruct (decide (m = m_initialize_bidding_object)) as [-> | Hb].
  { by apply reinstall_keeps_handles. }
  destruct (decide (m = m_initialize_tracking_object)) as [-> | Ht].
  { by apply reinstall_keeps_handles. }
  unfold holds_handles. by rewrite run_keeps_plugin_objects.
Qed.

Lemma simulate_keeps_handles (fs : list firing) s :
  Forall (λ f, (fired f).1 = self) fs →
  holds_handles self s → holds_handles self (simulate fs s).
Proof.
  intros Hfs. revert s. induction Hfs as [| f fs Hf _ IH]; intros s Hs; [done |].
  cbn. apply IH. unfold fire. rewrite Hf. by apply run_keeps_handles.
Qed.

(** C7. From extensions without ['plugin_objects'], the three initialization
    callbacks return normally and leave under ['plugin_objects'] exactly the
    coordinator's bidder under ['bidder'] and its tracker under ['tracker'].
    Every other callback leaves that entry untouched, from any state and
    however it ends, so the entry is still the same after any sequence of
    firings of the coordinator's callbacks. *)
Theorem one_bidder_and_one_tracker_per_simulation
    (options : Options) s (fs : list firing) :
  the_extensions s !! "plugin_objects" = None →
  Forall (λ f, (fired f).1 = self) fs →
  ∃ s1,
    initialization self options s = (Ok tt, s1) ∧
    the_extensions s1 !! "plugin_objects" =
      Some (XPlugins [("bidder", bidder self); ("tracker", tracker self)]) ∧
    the_extensions (simulate fs s1) !! "plugin_objects" =
      Some (XPlugins [("bidder", bidder self); ("tracker", tracker self)]) ∧
    (∀ m o ruc_date ruc_hour s',
       m ≠ m_initialize_bidding_object → m ≠ m_initialize_tracking_object →
       the_extensions (run self m o ruc_date ruc_hour s').2 !! "plugin_objects" =
         the_extensions s' !! "plugin_objects").
Proof.
  intros Hfresh Hfs.
  destruct (initialization_installs_handles options s Hfresh) as (s1 & E & H1).
  exists s1. split; [exact E |]. split; [exact H1 |]. split.
  - by apply simulate_keeps_handles.
  - intros m o ruc_date ruc_hour s' Hb Ht. by apply run_keeps_plugin_objects.
Qed.

End Handles.

(** ** Assembling the market signals *)

Lemma Forall_choose {A B} (P : A → B → Prop) (l : list A) :
  Forall (λ x, ∃ y, P x y) l → ∃ k, Forall2 P l k.
Proof.
  induction 1 as [| x l [y Hy] _ [k Hk]].
  - by exists [].
  - exists (y :: k). by constructor.
Qed.

Section Signals.

Context {num : Type}.
Implicit Types s : state num.

(** A loop that appends one value per step to the list of one generator. *)
Lemma for_in_collect (gen_name : string) (pick : Z → M num num)
    (ts : list Z) (vs l0 : list num) s :
  Forall2 (λ t v, pick t s = (Ok v, s)) ts vs →
  for_in ts
    (λ market_signals t,
       dispatch <~ pick t;
       ret (alter (λ l, list_append l dispatch) gen_name market_signals))
    ({[ gen_name := l0 ]} : gmap string (list num)) s
  = (Ok {[ gen_name := (l0 ++ vs)%list ]}, s).
Proof.
  intros Hvs. revert l0. induction Hvs as [| t v ts vs Hv _ IH]; intros l0; cbn.
  - by rewrite app_nil_r.
  - rewrite (bind_ok _ _ _ _ _ (bind_ok _ _ _ _ _ Hv)). cbn.
    rewrite alter_singleton_eq. unfold list_append. rewrite IH.
    by rewrite <- app_assoc.
Qed.

Lemma active_ruc_dispatch_Some (active : RucMarket num) s :
  ruc_market_active (data_manager (simulator s)) = Some active →
  active_ruc_dispatch s = (Ok (thermal_gen_cleared_DA active), s).
Proof. unfold active_ruc_dispatch, bind, gets. cbn. by intros ->. Qed.

Lemma sced_pg_values_Some (gen_name : string) gen_dict (sced : list num) s :
  generator (instance s) !! gen_name = Some gen_dict →
  gen_dict !! "pg" = Some (NumSeries sced) →
  sced_pg_values gen_name s = (Ok sced, s).
Proof.
  intros Hgen Hpg. unfold sced_pg_values, generator_getitem, bind, gets. cbn.
  rewrite Hgen. cbn. by rewrite Hpg.
Qed.

Lemma list_getitem_nonneg {A} (l : list A) (i : Z) :
  0 ≤ i → list_getitem l i = l !! Z.to_nat i.
Proof. intros Hi. unfold list_getitem. by destruct (Z.leb_spec 0 i); [| lia]. Qed.

(** C10. With an active RUC whose dispatch is known at the hours read,
    [assemble_project_tracking_signal] returns, without changing anything,
    a mapping of the bidding generator to a list of [sced_horizon] values;
    the value for hour [t] of [hour, hour + sced_horizon) is the active RUC
    dispatch at [t] when [t < 23] and the one at 23 otherwise. *)
Theorem assemble_project_tracking_signal_spec
    (options : Options) (h : Z) s (active : RucMarket num) :
  let gen_name := bidding_generator options in
  let H := sced_horizon options in
  let expected (t : Z) : option num :=
    if bool_decide (t < 23) then thermal_gen_cleared_DA active !! (gen_name, t)
    else thermal_gen_cleared_DA active !! (gen_name, 23) in
  1 ≤ H →
  ruc_market_active (data_manager (simulator s)) = Some active →
  (∀ t, h ≤ t < h + H → is_Some (expected t)) →
  ∃ l, assemble_project_tracking_signal options h s = (Ok {[ gen_name := l ]}, s) ∧
       Z.of_nat (length l) = H ∧
       ∀ t, h ≤ t < h + H → l !! Z.to_nat (t - h) = expected t.
Proof.
  intros gen_name H expected HH Hactive Hdata.
  assert (∃ vs, Forall2 (λ t v, expected t = Some v) (range h (h + H)) vs) as [vs Hvs].
  { apply Forall_choose, Forall_seqZ. intros t Ht. apply Hdata. lia. }
  exists vs. split; [| split].
  - unfold assemble_project_tracking_signal.
    rewrite (bind_ok _ _ _ _ _ (active_ruc_dispatch_Some _ _ Hactive)).
    fold gen_name H.
    rewrite (for_in_collect gen_name
               (λ t, if 23 <=? t
                     then from_option KeyError (thermal_gen_cleared_DA active !! (gen_name, 23))
                     else from_option KeyError (thermal_gen_cleared_DA active !! (gen_name, t)))
               _ vs); [done |].
    eapply Forall2_impl; [exact Hvs |]. intros t v. unfold expected.
    case_bool_decide; destruct (Z.leb_spec 23 t); try lia; by intros ->.
  - apply Forall2_length in Hvs. rewrite <- Hvs. unfold range.
    rewrite length_seqZ. lia.
  - intros t Ht.
    assert (range h (h + H) !! Z.to_nat (t - h) = Some t) as Hlook.
    { unfold range. rewrite lookup_seqZ_lt by lia. f_equal. lia. }
    destruct (Forall2_lookup_l _ _ _ _ _ Hvs Hlook) as (v & -> & Hv). by rewrite Hv.
Qed.

(** C4. With a SCED dispatch series, an active RUC and the dispatch known
    wherever it is read, [assemble_sced_tracking_market_signals] returns,
    without changing anything, a mapping of the bidding generator to a list
    of [sced_horizon] values: first the SCED dispatch at index 0, then for
    each hour [t] of (hour, hour + sced_horizon) the active RUC dispatch at
    [t] when [t <= 23], the pending RUC dispatch at [t mod 24] when [t > 23]
    and a RUC is pending, and the SCED dispatch at index [t - hour] when
    [t > 23] and none is pending. *)
Theorem assemble_sced_tracking_market_signals_spec
    (options : Options) (h : Z) s (gen_dict : gmap string (attr num))
    (sced : list num) (active : RucMarket num) (first : num) :
  let gen_name := bidding_generator options in
  let H := sced_horizon options in
  let pending := ruc_market_pending (data_manager (simulator s)) in
  let expected (t : Z) : option num :=
    if bool_decide (t ≤ 23) then thermal_gen_cleared_DA active !! (gen_name, t)
    else match pending with
         | Some next => thermal_gen_cleared_DA next !! (gen_name, t `mod` 24)
         | None => sced !! Z.to_nat (t - h)
         end in
  1 ≤ H →
  generator (instance s) !! gen_name = Some gen_dict →
  gen_dict !! "pg" = Some (NumSeries sced) →
  ruc_market_active (data_manager (simulator s)) = Some active →
  sced !! 0%nat = Some first →
  (∀ t, h < t < h + H → is_Some (expected t)) →
  ∃ l, assemble_sced_tracking_market_signals options h s = (Ok {[ gen_name := l ]}, s) ∧
       Z.of_nat (length l) = H ∧
       l !! 0%nat = Some first ∧
       ∀ t, h < t < h + H → l !! Z.to_nat (t - h) = expected t.
Proof.
  intros gen_name H pending expected HH Hgen Hpg Hactive Hfirst Hdata.
  assert (∃ vs, Forall2 (λ t v, h < t ∧ expected t = Some v)
                  (range (h + 1) (h + H)) vs) as [vs Hvs].
  { apply Forall_choose, Forall_seqZ. intros t Ht.
    destruct (Hdata t) as [v Hv]; [lia |]. exists v. split; [lia | done]. }
  exists (first :: vs). split; [| split; [| split]].
  - unfold assemble_sced_tracking_market_signals. fold gen_name H.
    rewrite (bind_ok _ _ _ _ _ (sced_pg_values_Some _ _ _ _ Hgen Hpg)).
    rewrite (bind_ok _ _ _ _ _ (active_ruc_dispatch_Some _ _ Hactive)).
    unfold bind at 1, gets. fold pending.
    erewrite (bind_ok (from_option IndexError (list_getitem sced 0)));
      [| rewrite list_getitem_nonneg by lia; change (Z.to_nat 0) with 0%nat;
         rewrite Hfirst; reflexivity].
    rewrite (for_in_collect gen_name
             (λ t, if (23 <? t) && bool_decide (is_Some pending) then
                     next_ruc_dispatch <~
                       from_option (UnboundLocalError "next_ruc_dispatch")
                         (@thermal_gen_cleared_DA num <$> pending);
                     from_option KeyError (next_ruc_dispatch !! (gen_name, t `mod` 24))
                   else if (23 <? t) && negb (bool_decide (is_Some pending)) then
                     from_option IndexError (list_getitem sced (t - h))
                   else
                     from_option KeyError
                       (thermal_gen_cleared_DA active !! (gen_name, t)))
               _ vs); [done |].
    eapply Forall2_impl; [exact Hvs |]. intros t v [Ht Hv]. revert Hv.
    unfold expected, pending.
    case_bool_decide; destruct (Z.ltb_spec 23 t); try lia;
      destruct (ruc_market_pending _); cbn;
      rewrite ?list_getitem_nonneg by lia; by intros ->.
  - apply Forall2_length in Hvs. cbn. rewrite <- Hvs. unfold range.
    rewrite length_seqZ. lia.
  - done.
  - intros t Ht.
    assert (range (h + 1) (h + H) !! Z.to_nat (t - (h + 1)) = Some t) as Hlook.
    { unfold range. rewrite lookup_seqZ_lt by lia. f_equal. lia. }
    destruct (Forall2_lookup_l _ _ _ _ _ Hvs Hlook) as (v & Hl & _ & Hv).
    replace (Z.to_nat (t - h)) with (S (Z.to_nat (t - (h + 1)))) by lia.
    change (vs !! Z.to_nat (t - (h + 1)) = expected t). by rewrite Hl, Hv.
Qed.

End Signals.

(** ** Passing the bids to the market instances *)

Section Bids.

Context {num : Type} {collaborators : Collaborators num}.
Implicit Types s : state num.

Lemma comprehension_ok {A B} (f : A → M num B) (l : list A) (k : list B) s :
  Forall2 (λ x y, f x s = (Ok y, s)) l k → comprehension f l s = (Ok k, s).
Proof.
  induction 1 as [| x y l k Hxy _ IH]; cbn; [done |].
  by rewrite (bind_ok _ _ _ _ _ Hxy), (bind_ok _ _ _ _ _ IH).
Qed.

Lemma generator_getitem_Some (gen_name : string) gen_dict s :
  generator (instance s) !! gen_name = Some gen_dict →
  generator_getitem gen_name s = (Ok gen_dict, s).
Proof. unfold generator_getitem, bind, gets. cbn. by intros ->. Qed.

(** The method [pass_RT_bid_to_prescient] itself stores, under ['p_cost']
    of the bidding generator, the piecewise cost curve made of
    [bids[hour][generator]]. *)
Lemma pass_RT_bid_to_prescient_spec (options : Options) (b : bids num) (h : Z)
    gen_dict bt (curve : list (num * num)) s :
  let gen_name := bidding_generator options in
  generator (instance s) !! gen_name = Some gen_dict →
  b !! h = Some bt → bt !! gen_name = Some curve →
  pass_RT_bid_to_prescient options (XBids b) h s =
    (Ok tt,
     with_instance
       (λ md, {| generator :=
                   alter <["p_cost" := CostCurve (piecewise curve)]> gen_name
                     (generator md) |}) s).
Proof.
  intros gen_name Hgen Hb Hbt. subst gen_name. unfold pass_RT_bid_to_prescient.
  rewrite (bind_ok _ _ _ _ _ (generator_getitem_Some _ _ _ Hgen)).
  unfold value_bid_items, bid_items. rewrite Hb. unfold bind, from_option, ret.
  by rewrite Hbt.
Qed.

(** The method [_pass_DA_bid_to_prescient] itself stores, under ['p_cost']
    of the bidding generator, a time series of [ruc_horizon] piecewise cost
    curves, the one at [t] made of [bids[t][generator]]. *)
Lemma _pass_DA_bid_to_prescient_spec (options : Options) (b : bids num)
    gen_dict (curves : list (list (num * num))) s :
  let gen_name := bidding_generator options in
  generator (instance s) !! gen_name = Some gen_dict →
  Forall2 (λ t curve, ∃ bt, b !! t = Some bt ∧ bt !! gen_name = Some curve)
    (range 0 (ruc_horizon options)) curves →
  _pass_DA_bid_to_prescient options b s =
    (Ok tt,
     with_instance
       (λ md, {| generator :=
                   alter <["p_cost" := CostCurveSeries (piecewise <$> curves)]> gen_name
                     (generator md) |}) s).
Proof.
  intros gen_name Hgen Hcurves. subst gen_name. unfold _pass_DA_bid_to_prescient.
  rewrite (bind_ok _ _ _ _ _ (generator_getitem_Some _ _ _ Hgen)).
  erewrite (bind_ok (comprehension _ _)); cycle 1.
  { apply comprehension_ok. eapply Forall2_impl; [exact Hcurves |].
    intros t curve (bt & Hb & Hbt). unfold bid_items. rewrite Hb.
    unfold bind, from_option, ret. by rewrite Hbt. }
  erewrite (bind_ok (comprehension _ _)); [reflexivity |].
  apply comprehension_ok, Forall2_fmap_r, Forall2_same_length_lookup.
  split; [exact (Forall2_length _ _ _ Hcurves) |].
  intros i t curve Ht Hcurve. unfold range in Ht.
  apply lookup_seqZ in Ht as [-> _].
  rewrite list_getitem_nonneg by lia.
  replace (Z.to_nat (0 + Z.of_nat i)) with i by lia. by rewrite Hcurve.
Qed.

Lemma plugin_object_state (name : string) s : (plugin_object name s).2 = s.
Proof.
  unfold plugin_object, extensions_getitem, bind, gets, from_option. cbn.
  destruct (the_extensions s !! "plugin_objects") as [[] |]; cbn; try done.
  by destruct (PyDict.get _ _).
Qed.

(** On the first day the callback asks the bidder for bids and stores them
    under both keys, then fails on its last line. *)
Lemma bid_into_DAM_first_day (options : Options) (ruc_date : string) (ruc_hour : Z)
    (d : PyDict.t handle) (b : handle) s :
  let bids := stochastic_bidding_returns b ruc_date (calls s) in
  current_time (time_manager (simulator s)) = None →
  the_extensions s !! "plugin_objects" = Some (XPlugins d) →
  PyDict.get d "bidder" = Some b →
  bid_into_DAM options ruc_date ruc_hour s =
    (Raise (NameError "_pass_DA_bid_to_prescient"),
     with_extensions
       (λ ext, <["next_bids" := XBids bids]> (<["current_bids" := XBids bids]> ext))
       (with_call (stochastic_bidding b ruc_date) s)).
Proof.
  intros bids Hnow Hplugins Hb. unfold bid_into_DAM.
  unfold bind at 1, gets. rewrite Hnow.
  rewrite bool_decide_eq_true_2 by done.
  erewrite (bind_ok (plugin_object _)); cycle 1.
  { unfold plugin_object.
    rewrite (bind_ok _ _ _ _ _ (extensions_getitem_Some _ _ _ Hplugins)).
    rewrite Hb. reflexivity. }
  reflexivity.
Qed.

(** On a later day the callback fails before it asks for bids: it changes
    nothing and calls nobody. *)
Lemma bid_into_DAM_later_day (options : Options) (ruc_date : string) (ruc_hour : Z)
    (now : Time) s :
  current_time (time_manager (simulator s)) = Some now →
  ∃ e, bid_into_DAM options ruc_date ruc_hour s = (Raise e, s).
Proof.
  intros Hnow. unfold bid_into_DAM.
  unfold bind at 1, gets. rewrite Hnow.
  rewrite bool_decide_eq_false_2 by done.
  unfold bind at 1. pose proof (plugin_object_state "bidder" s) as Hs.
  destruct (plugin_object "bidder" s) as [[b | e] s']; cbn in Hs; subst s';
    eexists; reflexivity.
Qed.

(** Whatever the state, [bid_into_RTM] ends with an exception. *)
Lemma bid_into_RTM_raises (options : Options) s :
  ∃ e, bid_into_RTM options s = (Raise e, s).
Proof.
  unfold bid_into_RTM, current_time_attr, extensions_getitem, bind, gets. cbn.
  destruct (current_time _); cbn; [| by eexists].
  destruct (the_extensions s !! "current_bids"); cbn; by eexists.
Qed.

End Bids.

(** ** The callbacks that never reach the market instance *)

(** C2. [bid_into_DAM] does not do what its docstring and the specification
    describe. On the first day
    it asks the bidder for bids, then ends with a [NameError] at the bare name
    [_pass_DA_bid_to_prescient]: the RUC instance is left without ['p_cost'].
    On a later day it ends with a [NameError] at the bare name
    [project_tracking_trajectory] before any call to the bidder: no
    [update_model], no [stochastic_bidding]. The method
    [_pass_DA_bid_to_prescient], called on the same input, writes the time
    series of piecewise curves. *)
Theorem bid_into_DAM_never_writes_p_cost :
  let bid_into_DAM :=
    bid_into_DAM (collaborators := Example.collaborators) Example.options "2020-07-11" 12 in
  bid_into_DAM Example.first_day =
    (Raise (NameError "_pass_DA_bid_to_prescient"),
     with_extensions
       (λ ext, <["next_bids" := XBids Example.day_bids]>
                 (<["current_bids" := XBids Example.day_bids]> ext))
       (with_call (stochastic_bidding 1%nat "2020-07-11") Example.first_day)) ∧
  generator (instance (bid_into_DAM Example.first_day).2) !! Example.gen =
    Some {[ "pg" := NumSeries [7; 8; 9; 10] ]} ∧
  bid_into_DAM Example.later_day =
    (Raise (NameError "project_tracking_trajectory"), Example.later_day) ∧
  calls (bid_into_DAM Example.later_day).2 = [] ∧
  generator
    (instance (_pass_DA_bid_to_prescient Example.options Example.day_bids
                 Example.first_day).2) !! Example.gen =
    Some {[ "pg" := NumSeries [7; 8; 9; 10];
            "p_cost" := CostCurveSeries [piecewise [(0, 0); (50, 1200)];
                                         piecewise [(0, 0); (60, 1500)]] ]}.
Proof. cbn zeta. repeat split; by vm_compute. Qed.

(** C3. [bid_into_RTM] does not do what its docstring and the specification
    describe. With the current hour set and ['current_bids'] in place it ends with a [NameError] at the
    bare name [pass_RT_bid_to_prescient] and leaves the SCED instance without
    ['p_cost']. The method [pass_RT_bid_to_prescient], called with what the
    callback had fetched, writes the piecewise curve of the current hour. *)
Theorem bid_into_RTM_never_writes_p_cost :
  current_time (time_manager (simulator Example.later_day)) =
    Some {| date := "2020-07-11"; hour := 1 |} ∧
  the_extensions Example.later_day !! "current_bids" = Some (XBids Example.day_bids) ∧
  bid_into_RTM Example.options Example.later_day =
    (Raise (NameError "pass_RT_bid_to_prescient"), Example.later_day) ∧
  generator (instance (bid_into_RTM Example.options Example.later_day).2) !! Example.gen =
    Some {[ "pg" := NumSeries [7; 8; 9; 10] ]} ∧
  generator
    (instance (pass_RT_bid_to_prescient Example.options (XBids Example.day_bids) 1
                 Example.later_day).2) !! Example.gen =
    Some {[ "pg" := NumSeries [7; 8; 9; 10];
            "p_cost" := CostCurve (piecewise [(0, 0); (60, 1500)]) ]}.
Proof. repeat split; by vm_compute. Qed.

(** C9. On a later day [bid_into_DAM] does not store the new bids: it ends
    with a [NameError] at the bare name [project_tracking_trajectory] before
    it asks the bidder, so ['next_bids'] keeps its old value instead of the
    bids the bidder would have returned. *)
Theorem bid_into_DAM_later_day_stores_no_bids :
  let bid_into_DAM :=
    bid_into_DAM (collaborators := Example.collaborators) Example.options "2020-07-12" 12 in
  let new_bids :=
    stochastic_bidding_returns (Collaborators := Example.collaborators)
      (bidder Example.coordinator) "2020-07-12" (calls Example.later_day) in
  (bid_into_DAM Example.later_day).1 = Raise (NameError "project_tracking_trajectory") ∧
  the_extensions (bid_into_DAM Example.later_day).2 !! "next_bids" = Some XNone ∧
  the_extensions (bid_into_DAM Example.later_day).2 !! "next_bids" ≠ Some (XBids new_bids) ∧
  the_extensions (bid_into_DAM Example.later_day).2 !! "current_bids" =
    the_extensions Example.later_day !! "current_bids".
Proof. cbn zeta. repeat split; by vm_compute. Qed.

(** C6, as stated, fails before the first time step: the current time is
    [None], reading its hour raises an [AttributeError], and the extensions
    are never looked at. *)
Lemma bid_into_RTM_before_first_time_step :
  the_extensions Example.before_first_bid !! "current_bids" = None ∧
  bid_into_RTM Example.options Example.before_first_bid =
    (Raise AttributeError, Example.before_first_bid) ∧
  bid_into_RTM Example.options Example.before_first_bid ≠
    (Raise KeyError, Example.before_first_bid).
Proof. repeat split; by vm_compute. Qed.

(** ** The theorems at concrete inputs *)

Lemma after_ruc_activation_promotes_next_bids_witness :
  the_extensions Example.day_ahead_bid !! "next_bids" = Some (XBids Example.day_bids) ∧
  ∃ s',
    after_ruc_activation Example.options Example.day_ahead_bid = (Ok tt, s') ∧
    the_extensions s' !! "current_bids" = Some (XBids Example.day_bids) ∧
    the_extensions s' !! "next_bids" = Some XNone ∧
    s' = with_extensions
           (λ ext, <["next_bids" := XNone]>
                     (<["current_bids" := XBids Example.day_bids]> ext))
           Example.day_ahead_bid.
Proof.
  split; [reflexivity |].
  apply (after_ruc_activation_promotes_next_bids Example.options Example.day_ahead_bid).
  reflexivity.
Defined.

Lemma bid_into_RTM_missing_current_bids_witness :
  current_time (time_manager (simulator Example.no_bids)) =
    Some {| date := "2020-07-10"; hour := 0 |} ∧
  the_extensions Example.no_bids !! "current_bids" = None ∧
  bid_into_RTM Example.options Example.no_bids = (Raise KeyError, Example.no_bids) ∧
  ∀ (B : Type) (caller : unit → M Z B),
    bind (bid_into_RTM Example.options) caller Example.no_bids =
      (Raise KeyError, Example.no_bids).
Proof.
  split; [reflexivity |]. split; [reflexivity |].
  apply (bid_into_RTM_missing_current_bids Example.options Example.no_bids
           {| date := "2020-07-10"; hour := 0 |}); reflexivity.
Defined.

Lemma write_plugin_results_calls_every_plugin_witness :
  the_extensions Example.later_day !! "plugin_objects" =
    Some (XPlugins [("bidder", 1%nat); ("tracker", 2%nat)]) ∧
  write_plugin_results Example.options Example.later_day =
    (Ok tt,
     with_calls [write_results 1%nat "output"; write_results 2%nat "output"]
       Example.later_day) ∧
  calls (write_plugin_results Example.options Example.later_day).2 =
    [write_results 1%nat "output"; write_results 2%nat "output"].
Proof.
  split; [reflexivity |].
  destruct (write_plugin_results_calls_every_plugin Example.options Example.later_day
              [("bidder", 1%nat); ("tracker", 2%nat)] eq_refl) as [E Hboth].
  split; [exact E |]. exact (Hboth Example.coordinator eq_refl).
Defined.

Lemma one_bidder_and_one_tracker_per_simulation_witness :
  let fs :=
    [ {| fired := (Example.coordinator, m_bid_into_DAM);
         with_options := Example.options; with_ruc_date := "2020-07-10";
         with_ruc_hour := 0 |};
      {| fired := (Example.coordinator, m_after_ruc_activation);
         with_options := Example.options; with_ruc_date := ""; with_ruc_hour := 0 |};
      {| fired := (Example.coordinator, m_initialize_bidding_object);
         with_options := Example.options; with_ruc_date := ""; with_ruc_hour := 0 |};
      {| fired := (Example.coordinator, m_write_plugin_results);
         with_options := Example.options; with_ruc_date := ""; with_ruc_hour := 0 |} ] in
  the_extensions Example.before_first_bid !! "plugin_objects" = None ∧
  Forall (λ f, (fired f).1 = Example.coordinator) fs ∧
  ∃ s1,
    initialization (collaborators := Example.collaborators)
      Example.coordinator Example.options Example.before_first_bid = (Ok tt, s1) ∧
    the_extensions s1 !! "plugin_objects" = Some Example.plugin_objects ∧
    the_extensions (simulate (collaborators := Example.collaborators) fs s1)
      !! "plugin_objects" = Some Example.plugin_objects.
Proof.
  intros fs.
  assert (Forall (λ f, (fired f).1 = Example.coordinator) fs) as Hfs.
  { repeat constructor. }
  split; [reflexivity |]. split; [exact Hfs |].
  destruct (one_bidder_and_one_tracker_per_simulation
              (collaborators := Example.collaborators) Example.coordinator
              Example.options Example.before_first_bid fs eq_refl Hfs)
    as (s1 & E & H1 & H2 & _).
  exists s1. split; [exact E |]. split; [exact H1 | exact H2].
Defined.

Lemma assemble_project_tracking_signal_spec_witness :
  ∃ l,
    assemble_project_tracking_signal Example.options 21 Example.later_day =
      (Ok {[ Example.gen := l ]}, Example.later_day) ∧
    Z.of_nat (length l) = 4 ∧
    ∀ t, 21 ≤ t < 21 + 4 →
      l !! Z.to_nat (t - 21) =
        if bool_decide (t < 23)
        then thermal_gen_cleared_DA (Example.market 100) !! (Example.gen, t)
        else thermal_gen_cleared_DA (Example.market 100) !! (Example.gen, 23).
Proof.
  apply (assemble_project_tracking_signal_spec Example.options 21 Example.later_day
           (Example.market 100)).
  - cbn. lia.
  - reflexivity.
  - intros t Ht. cbn in Ht.
    assert (t = 21 ∨ t = 22 ∨ t = 23 ∨ t = 24) as [-> | [-> | [-> | ->]]] by lia;
      vm_compute; eauto.
Defined.

Lemma assemble_sced_tracking_market_signals_spec_witness :
  ∃ l,
    assemble_sced_tracking_market_signals Example.options 21 Example.later_day =
      (Ok {[ Example.gen := l ]}, Example.later_day) ∧
    Z.of_nat (length l) = 4 ∧
    l !! 0%nat = Some 7 ∧
    ∀ t, 21 < t < 21 + 4 →
      l !! Z.to_nat (t - 21) =
        if bool_decide (t ≤ 23)
        then thermal_gen_cleared_DA (Example.market 100) !! (Example.gen, t)
        else [7; 8; 9; 10] !! Z.to_nat (t - 21).
Proof.
  apply (assemble_sced_tracking_market_signals_spec Example.options 21 Example.later_day
           {[ "pg" := NumSeries [7; 8; 9; 10] ]} [7; 8; 9; 10] (Example.market 100) 7).
  - cbn. lia.
  - reflexivity.
  - reflexivity.
  - reflexivity.
  - reflexivity.
  - intros t Ht. cbn in Ht.
    assert (t = 22 ∨ t = 23 ∨ t = 24) as [-> | [-> | ->]] by lia;
      vm_compute; eauto.
Defined.

(** * Further properties of the module *)

(** ** What a computation preserves *)

Create HintDb preserves.

Section Preserves.

Context {num : Type} {collaborators : Collaborators num}.
Variable P : state num → Prop.

Lemma preserves_ret {A} (a : A) : preserves P (ret a).
Proof. by intros s. Qed.

Lemma preserves_raise {A} (e : exn) : preserves P (raise (A := A) e).
Proof. by intros s. Qed.

Lemma preserves_gets {A} (f : state num → A) : preserves P (gets f).
Proof. by intros s. Qed.

Lemma preserves_from_option {A} (e : exn) (o : option A) : preserves P (from_option e o).
Proof. destruct o; by intros s. Qed.

Lemma preserves_bind {A B} (c : M num A) (k : A → M num B) :
  preserves P c → (∀ a, preserves P (k a)) → preserves P (bind c k).
Proof.
  intros Hc Hk s Hs. unfold bind. specialize (Hc s Hs).
  destruct (c s) as [[a | e] s']; cbn in *; [| done]. by apply Hk.
Qed.

Lemma call_global_raises {A Args} (name : string) (args : Args) (s : state num) :
  ∃ e, call_global (A := A) name args s = (Raise e, s).
Proof. unfold call_global. case_bool_decide; by eexists. Qed.

Lemma preserves_call_global {A Args} (name : string) (args : Args) :
  preserves P (call_global (A := A) name args).
Proof. intros s Hs. by destruct (call_global_raises (A := A) name args s) as [e ->]. Qed.

(** What follows a call through a bare name is never run. *)
Lemma preserves_after_call_global {A B Args} (name : string) (args : Args)
    (k : A → M num B) :
  preserves P (bind (call_global name args) k).
Proof.
  intros s Hs. unfold bind.
  by destruct (call_global_raises (A := A) name args s) as [e ->].
Qed.

Lemma preserves_modify (f : state num → state num) :
  (∀ s, P s → P (f s)) → preserves P (modify f).
Proof. intros Hf s Hs. by apply Hf. Qed.

Lemma preserves_for_in {A B} (l : list A) (body : B → A → M num B) (acc : B) :
  (∀ b a, preserves P (body b a)) → preserves P (for_in l body acc).
Proof.
  intros Hbody. revert acc. induction l as [| x l IH]; intros acc; cbn.
  - apply preserves_ret.
  - apply preserves_bind; auto.
Qed.

Lemma preserves_comprehension {A B} (f : A → M num B) (l : list A) :
  (∀ a, preserves P (f a)) → preserves P (comprehension f l).
Proof.
  intros Hf. induction l as [| x l IH]; cbn.
  - apply preserves_ret.
  - apply preserves_bind; [auto |]. intros y.
    apply preserves_bind; [auto |]. intros ys. apply preserves_ret.
Qed.

Lemma preserves_extensions_getitem (k : string) : preserves P (extensions_getitem k).
Proof.
  unfold extensions_getitem. apply preserves_bind; [apply preserves_gets |].
  intros ext. apply preserves_from_option.
Qed.

Lemma preserves_plugin_object (name : string) : preserves P (plugin_object name).
Proof.
  unfold plugin_object. apply preserves_bind; [apply preserves_extensions_getitem |].
  intros []; auto using preserves_raise, preserves_from_option.
Qed.

Lemma preserves_current_time_attr {A} (f : Time → A) : preserves P (current_time_attr f).
Proof.
  unfold current_time_attr. apply preserves_bind; [apply preserves_gets |].
  intros now. apply preserves_from_option.
Qed.

Lemma preserves_active_ruc_dispatch : preserves P active_ruc_dispatch.
Proof.
  unfold active_ruc_dispatch. apply preserves_bind; [apply preserves_gets |].
  intros m. apply preserves_from_option.
Qed.

Lemma preserves_generator_getitem (gen_name : string) :
  preserves P (generator_getitem gen_name).
Proof.
  unfold generator_getitem. apply preserves_bind; [apply preserves_gets |].
  intros g. apply preserves_from_option.
Qed.

Lemma preserves_bid_items (b : bids num) (t : Z) (gen_name : string) :
  preserves P (bid_items b t gen_name).
Proof.
  unfold bid_items. apply preserves_bind; [apply preserves_from_option |].
  intros bt. apply preserves_from_option.
Qed.

Lemma preserves_value_bid_items (v : ext_value num) (t : Z) (gen_name : string) :
  preserves P (value_bid_items v t gen_name).
Proof. destruct v; cbn; auto using preserves_raise, preserves_bid_items. Qed.

Lemma preserves_sced_pg_values (gen_name : string) : preserves P (sced_pg_values gen_name).
Proof.
  unfold sced_pg_values. apply preserves_bind; [apply preserves_generator_getitem |].
  intros gen_dict. apply preserves_bind; [apply preserves_from_option |].
  intros []; auto using preserves_raise, preserves_ret.
Qed.

End Preserves.

#[global] Hint Resolve preserves_ret preserves_raise preserves_gets preserves_from_option
  preserves_call_global preserves_after_call_global preserves_extensions_getitem
  preserves_plugin_object preserves_current_time_attr preserves_active_ruc_dispatch
  preserves_generator_getitem preserves_bid_items preserves_value_bid_items
  preserves_sced_pg_values : preserves.

(** Splits a computation at its binds, loops and branches. *)
Ltac preserves_steps :=
  repeat first
    [ solve [auto with preserves]
    | apply preserves_bind; [| intros ?]
    | apply preserves_for_in; intros ? ?
    | apply preserves_comprehension; intros ?
    | match goal with
      | |- preserves _ (match ?x with _ => _ end) => destruct x
      | |- preserves _ (if ?b then _ else _) => destruct b
      end ].

(** ** The market signals, further *)

Section MoreSignals.

Context {num : Type}.
Implicit Types s : state num.

(** X1. Assembling market signals only reads: whether they return or raise,
    [assemble_project_tracking_signal] and
    [assemble_sced_tracking_market_signals] leave the simulator, the SCED
    instance, the statistics and the log of calls exactly as they were. *)
Theorem assembling_signals_changes_nothing (options : Options) (h : Z) s :
  (assemble_project_tracking_signal options h s).2 = s ∧
  (assemble_sced_tracking_market_signals options h s).2 = s.
Proof.
  split.
  - assert (preserves (λ s', s' = s) (assemble_project_tracking_signal options h)) as H.
    { unfold assemble_project_tracking_signal. preserves_steps. }
    by apply H.
  - assert (preserves (λ s', s' = s) (assemble_sced_tracking_market_signals options h))
      as H.
    { unfold assemble_sced_tracking_market_signals. preserves_steps. }
    by apply H.
Qed.

(** X2. From hour 23 on the projected signal is flat: when [hour >= 23] and
    the active RUC has a dispatch for hour 23, the signal of the generator is
    that one value repeated [sced_horizon] times (no value at all for a
    horizon of zero or less), and no other hour of the RUC is read. *)
Theorem projected_signal_is_flat_after_hour_23
    (options : Options) (h : Z) s (active : RucMarket num) (v : num) :
  let gen_name := bidding_generator options in
  23 ≤ h →
  ruc_market_active (data_manager (simulator s)) = Some active →
  thermal_gen_cleared_DA active !! (gen_name, 23) = Some v →
  assemble_project_tracking_signal options h s =
    (Ok {[ gen_name := replicate (Z.to_nat (sced_horizon options)) v ]}, s).
Proof.
  intros gen_name Hh Hactive Hv. unfold assemble_project_tracking_signal.
  rewrite (bind_ok _ _ _ _ _ (active_ruc_dispatch_Some _ _ Hactive)).
  fold gen_name.
  rewrite (for_in_collect gen_name
             (λ t, if 23 <=? t
                   then from_option KeyError (thermal_gen_cleared_DA active !! (gen_name, 23))
                   else from_option KeyError (thermal_gen_cleared_DA active !! (gen_name, t)))
             _ (replicate (Z.to_nat (sced_horizon options)) v)); [done |].
  apply Forall2_replicate_r.
  - unfold range. rewrite length_seqZ. f_equal. lia.
  - apply Forall_seqZ. intros t Ht. cbn.
    destruct (Z.leb_spec 23 t); [| lia]. by rewrite Hv.
Qed.

(** X3. With a horizon of one hour or less, the SCED tracking signal is the
    single value [sced_dispatch[0]]: the list has one element even when
    [sced_horizon] is zero or negative, and no RUC dispatch is read (an
    active RUC must still be there). *)
Theorem sced_signal_has_at_least_one_value
    (options : Options) (h : Z) s (gen_dict : gmap string (attr num))
    (sced : list num) (active : RucMarket num) (first : num) :
  let gen_name := bidding_generator options in
  sced_horizon options ≤ 1 →
  generator (instance s) !! gen_name = Some gen_dict →
  gen_dict !! "pg" = Some (NumSeries sced) →
  ruc_market_active (data_manager (simulator s)) = Some active →
  sced !! 0%nat = Some first →
  assemble_sced_tracking_market_signals options h s = (Ok {[ gen_name := [first] ]}, s).
Proof.
  intros gen_name HH Hgen Hpg Hactive Hfirst.
  unfold assemble_sced_tracking_market_signals. fold gen_name.
  rewrite (bind_ok _ _ _ _ _ (sced_pg_values_Some _ _ _ _ Hgen Hpg)).
  rewrite (bind_ok _ _ _ _ _ (active_ruc_dispatch_Some _ _ Hactive)).
  unfold bind at 1, gets.
  erewrite (bind_ok (from_option IndexError (list_getitem sced 0)));
    [| rewrite list_getitem_nonneg by lia; change (Z.to_nat 0) with 0%nat;
       rewrite Hfirst; reflexivity].
  unfold range. by rewrite seqZ_nil by lia.
Qed.

(** X4. Within the day the two signals agree after their first value: when
    [hour + sced_horizon <= 24] and the active RUC has a dispatch for every
    hour of [hour, hour + sced_horizon), the SCED tracking signal is the
    projected signal with its first value replaced by [sced_dispatch[0]],
    whether or not a RUC is pending. *)
Theorem sced_signal_follows_projected_signal_within_the_day
    (options : Options) (h : Z) s (gen_dict : gmap string (attr num))
    (sced : list num) (active : RucMarket num) (first : num) :
  let gen_name := bidding_generator options in
  let H := sced_horizon options in
  1 ≤ H → h + H ≤ 24 →
  generator (instance s) !! gen_name = Some gen_dict →
  gen_dict !! "pg" = Some (NumSeries sced) →
  sced !! 0%nat = Some first →
  ruc_market_active (data_manager (simulator s)) = Some active →
  (∀ t, h ≤ t < h + H → is_Some (thermal_gen_cleared_DA active !! (gen_name, t))) →
  ∃ v vs,
    thermal_gen_cleared_DA active !! (gen_name, h) = Some v ∧
    assemble_project_tracking_signal options h s = (Ok {[ gen_name := v :: vs ]}, s) ∧
    assemble_sced_tracking_market_signals options h s =
      (Ok {[ gen_name := first :: vs ]}, s).
Proof.
  intros gen_name H HH Hday Hgen Hpg Hfirst Hactive Hdata.
  destruct (Hdata h) as [v Hv]; [lia |].
  assert (∃ vs, Forall2 (λ t v, t ≤ 23 ∧
                           thermal_gen_cleared_DA active !! (gen_name, t) = Some v)
                  (range (h + 1) (h + H)) vs) as [vs Hvs].
  { apply Forall_choose, Forall_seqZ. intros t Ht.
    destruct (Hdata t) as [w Hw]; [lia |]. exists w. split; [lia | done]. }
  assert (range h (h + H) = h :: range (h + 1) (h + H)) as Hrange.
  { unfold range. rewrite (seqZ_cons h) by lia. do 2 f_equal; lia. }
  exists v, vs. split; [exact Hv |]. split.
  - unfold assemble_project_tracking_signal.
    rewrite (bind_ok _ _ _ _ _ (active_ruc_dispatch_Some _ _ Hactive)).
    fold gen_name H. rewrite Hrange.
    rewrite (for_in_collect gen_name
               (λ t, if 23 <=? t
                     then from_option KeyError
                            (thermal_gen_cleared_DA active !! (gen_name, 23))
                     else from_option KeyError
                            (thermal_gen_cleared_DA active !! (gen_name, t)))
               _ (v :: vs)); [done |].
    constructor.
    + destruct (Z.leb_spec 23 h); [replace h with 23 in * by lia |]; by rewrite Hv.
    + eapply Forall2_impl; [exact Hvs |]. intros t w [Ht Hw]. cbn.
      destruct (Z.leb_spec 23 t); [replace t with 23 in * by lia |]; by rewrite Hw.
  - unfold assemble_sced_tracking_market_signals. fold gen_name H.
    rewrite (bind_ok _ _ _ _ _ (sced_pg_values_Some _ _ _ _ Hgen Hpg)).
    rewrite (bind_ok _ _ _ _ _ (active_ruc_dispatch_Some _ _ Hactive)).
    unfold bind at 1, gets.
    erewrite (bind_ok (from_option IndexError (list_getitem sced 0)));
      [| rewrite list_getitem_nonneg by lia; change (Z.to_nat 0) with 0%nat;
         rewrite Hfirst; reflexivity].
    set (pending := ruc_market_pending (data_manager (simulator s))).
    rewrite (for_in_collect gen_name
               (λ t, if (23 <? t) && bool_decide (is_Some pending) then
                       next_ruc_dispatch <~
                         from_option (UnboundLocalError "next_ruc_dispatch")
                           (@thermal_gen_cleared_DA num <$> pending);
                       from_option KeyError (next_ruc_dispatch !! (gen_name, t `mod` 24))
                     else if (23 <? t) && negb (bool_decide (is_Some pending)) then
                       from_option IndexError (list_getitem sced (t - h))
                     else
                       from_option KeyError
                         (thermal_gen_cleared_DA active !! (gen_name, t)))
               _ vs); [done |].
    eapply Forall2_impl; [exact Hvs |]. intros t w [Ht Hw]. cbn.
    destruct (Z.ltb_spec 23 t); [lia |]. cbn. by rewrite Hw.
Qed.

End MoreSignals.

(** ** Passing bids to a market instance, further *)

Section MoreBids.

Context {num : Type}.
Implicit Types s : state num.

Lemma generator_after_setitem (gen_name k : string) (v : attr num) gen_dict s :
  generator (instance s) !! gen_name = Some gen_dict →
  generator (instance (with_instance
               (λ md, {| generator := alter <[k := v]> gen_name (generator md) |}) s))
    !! gen_name = Some (<[k := v]> gen_dict).
Proof. intros Hgen. cbn. by rewrite lookup_alter_eq, Hgen. Qed.

Lemma other_generator_after_setitem (gen_name k g : string) (v : attr num) s :
  g ≠ gen_name →
  generator (instance (with_instance
               (λ md, {| generator := alter <[k := v]> gen_name (generator md) |}) s))
    !! g = generator (instance s) !! g.
Proof. intros Hg. cbn. by rewrite lookup_alter_ne. Qed.

(** X5. When the RUC instance has the bidding generator and the bid set has
    the generator's curve at every hour of [range(ruc_horizon)],
    [_pass_DA_bid_to_prescient] returns normally and changes one thing: the
    generator's ['p_cost'] becomes a time series with one piecewise curve per
    hour, the curve of hour [t] holding the items of [bids[t][generator]].
    The generator's other attributes, the other generators, the simulator
    and the log of calls stay as they were. *)
Theorem day_ahead_bids_become_a_series_of_piecewise_curves
    (options : Options) (b : bids num) (gen_dict : gmap string (attr num))
    (curves : list (list (num * num))) s :
  let gen_name := bidding_generator options in
  generator (instance s) !! gen_name = Some gen_dict →
  Forall2 (λ t curve, ∃ bt, b !! t = Some bt ∧ bt !! gen_name = Some curve)
    (range 0 (ruc_horizon options)) curves →
  ∃ s',
    _pass_DA_bid_to_prescient options b s = (Ok tt, s') ∧
    generator (instance s') !! gen_name =
      Some (<["p_cost" := CostCurveSeries (piecewise <$> curves)]> gen_dict) ∧
    length curves = Z.to_nat (ruc_horizon options) ∧
    (∀ g, g ≠ gen_name → generator (instance s') !! g = generator (instance s) !! g) ∧
    simulator s' = simulator s ∧
    observed_thermal_dispatch_levels s' = observed_thermal_dispatch_levels s ∧
    calls s' = calls s.
Proof.
  intros gen_name Hgen Hcurves.
  eexists. split; [by apply (_pass_DA_bid_to_prescient_spec options b gen_dict curves) |].
  split; [by apply generator_after_setitem |]. split.
  { apply Forall2_length in Hcurves. rewrite <- Hcurves. unfold range.
    rewrite length_seqZ. f_equal. lia. }
  split; [intros g Hg; by apply other_generator_after_setitem |]. done.
Qed.

(** X6. When the SCED instance has the bidding generator and the bid set has
    the generator's curve at [hour], [pass_RT_bid_to_prescient] returns
    normally and changes one thing: the generator's ['p_cost'] becomes the
    piecewise curve holding the items of [bids[hour][generator]]. The
    generator's other attributes, the other generators, the simulator and the
    log of calls stay as they were. *)
Theorem real_time_bid_becomes_a_piecewise_curve
    (options : Options) (b : bids num) (h : Z) (gen_dict : gmap string (attr num))
    (bt : gmap string (list (num * num))) (curve : list (num * num)) s :
  let gen_name := bidding_generator options in
  generator (instance s) !! gen_name = Some gen_dict →
  b !! h = Some bt → bt !! gen_name = Some curve →
  ∃ s',
    pass_RT_bid_to_prescient options (XBids b) h s = (Ok tt, s') ∧
    generator (instance s') !! gen_name =
      Some (<["p_cost" := CostCurve (piecewise curve)]> gen_dict) ∧
    (∀ g, g ≠ gen_name → generator (instance s') !! g = generator (instance s) !! g) ∧
    simulator s' = simulator s ∧
    observed_thermal_dispatch_levels s' = observed_thermal_dispatch_levels s ∧
    calls s' = calls s.
Proof.
  intros gen_name Hgen Hb Hbt.
  eexists. split; [by apply (pass_RT_bid_to_prescient_spec options b h gen_dict bt curve) |].
  split; [by apply generator_after_setitem |].
  split; [intros g Hg; by apply other_generator_after_setitem |]. done.
Qed.

(** A step that only reads either ends the computation where it started or
    hands over in the same state. *)
Lemma bind_read_only_inv {A B} (c : M num A) (k : A → M num B) s r s' :
  (c s).2 = s → bind c k s = (r, s') →
  (∃ e, r = Raise e ∧ s' = s) ∨ (∃ a, k a s = (r, s')).
Proof.
  unfold bind. destruct (c s) as [[a | e] s1]; cbn; intros -> E.
  - right. by exists a.
  - left. exists e. by inversion E.
Qed.

Lemma read_only_comprehension {A B} (f : A → M num B) (l : list A) s :
  (∀ a, (f a s).2 = s) → (comprehension f l s).2 = s.
Proof.
  intros Hf.
  assert (preserves (λ s', s' = s) (comprehension f l)) as H; [| by apply H].
  apply preserves_comprehension. intros a s' ->. apply Hf.
Qed.

(** X7. Passing bids is all or nothing: when [_pass_DA_bid_to_prescient] or
    [pass_RT_bid_to_prescient] raises (no such generator in the instance, an
    hour or the generator missing from the bids, bids that are [None]), the
    instance and the rest of the state are exactly as before the call. *)
Theorem failed_bid_passing_changes_nothing
    (options : Options) (b : bids num) (v : ext_value num) (h : Z) s :
  (∀ e s', _pass_DA_bid_to_prescient options b s = (Raise e, s') → s' = s) ∧
  (∀ e s', pass_RT_bid_to_prescient options v h s = (Raise e, s') → s' = s).
Proof.
  split; intros e s'.
  - unfold _pass_DA_bid_to_prescient. intros E.
    apply bind_read_only_inv in E as [(? & _ & ->) | [_ E]]; [done | |].
    2: { by apply (preserves_generator_getitem (λ s', s' = s)). }
    apply bind_read_only_inv in E as [(? & _ & ->) | [p_cost E]]; [done | |].
    2: { apply read_only_comprehension. intros t.
         by apply (preserves_bid_items (λ s', s' = s)). }
    apply bind_read_only_inv in E as [(? & _ & ->) | [curves E]]; [done | |].
    2: { apply read_only_comprehension. intros t.
         assert (preserves (λ s', s' = s)
                   (c <~ from_option IndexError (list_getitem p_cost t);
                    ret (piecewise c))) as H; [preserves_steps | by apply H]. }
    discriminate E.
  - unfold pass_RT_bid_to_prescient. intros E.
    apply bind_read_only_inv in E as [(? & _ & ->) | [_ E]]; [done | |].
    2: { by apply (preserves_generator_getitem (λ s', s' = s)). }
    apply bind_read_only_inv in E as [(? & _ & ->) | [p_cost E]]; [done | |].
    2: { by apply (preserves_value_bid_items (λ s', s' = s)). }
    discriminate E.
Qed.

End MoreBids.

(** ** The life of a bid set *)

Section BidLifecycle.

Context {num : Type} {collaborators : Collaborators num}.
Implicit Types s : state num.

(** X8. A second activation with no day-ahead bidding in between discards
    the bids: after two runs of [after_ruc_activation] both ['current_bids']
    and ['next_bids'] hold [None], and passing the current bids to a SCED
    instance that has the generator ends with a [TypeError]. *)
Theorem second_activation_discards_the_bids
    (options : Options) s (v : ext_value num) (h : Z) :
  the_extensions s !! "next_bids" = Some v →
  ∃ s',
    (after_ruc_activation options ;> after_ruc_activation options) s = (Ok tt, s') ∧
    the_extensions s' !! "current_bids" = Some XNone ∧
    the_extensions s' !! "next_bids" = Some XNone ∧
    (is_Some (generator (instance s) !! bidding_generator options) →
     (bids <~ extensions_getitem "current_bids";
      pass_RT_bid_to_prescient options bids h) s' = (Raise TypeError, s')).
Proof.
  intros Hnext.
  set (s1 := with_extensions
               (λ ext, <["next_bids" := XNone]> (<["current_bids" := v]> ext)) s).
  assert (after_ruc_activation options s = (Ok tt, s1)) as E1.
  { unfold after_ruc_activation.
    by rewrite (bind_ok _ _ _ _ _ (extensions_getitem_Some _ _ _ Hnext)). }
  assert (the_extensions s1 !! "next_bids" = Some XNone) as Hnext1.
  { apply lookup_insert_eq. }
  set (s2 := with_extensions
               (λ ext, <["next_bids" := XNone]> (<["current_bids" := XNone]> ext)) s1).
  assert (after_ruc_activation options s1 = (Ok tt, s2)) as E2.
  { unfold after_ruc_activation.
    by rewrite (bind_ok _ _ _ _ _ (extensions_getitem_Some _ _ _ Hnext1)). }
  assert (the_extensions s2 !! "current_bids" = Some XNone) as Hcurrent2.
  { unfold s2. rewrite the_extensions_with_extensions.
    rewrite lookup_insert_ne by done. apply lookup_insert_eq. }
  exists s2. split; [by rewrite (bind_ok _ _ _ _ _ E1) |].
  split; [exact Hcurrent2 |]. split; [apply lookup_insert_eq |].
  intros [gen_dict Hgen].
  rewrite (bind_ok _ _ _ _ _ (extensions_getitem_Some _ _ _ Hcurrent2)).
  unfold pass_RT_bid_to_prescient, generator_getitem, bind, gets. cbn.
  by rewrite Hgen.
Qed.

(** X9. The first day's bids go into effect at the first activation: after
    [bid_into_DAM] on the first day (which ends with its [NameError]) and
    [after_ruc_activation], ['current_bids'] holds the bids the bidder
    returned, ['next_bids'] holds [None], and the bidder has been asked
    exactly once. *)
Theorem first_day_bids_are_activated
    (options : Options) (ruc_date : string) (ruc_hour : Z)
    (d : PyDict.t handle) (b : handle) s :
  let bids := stochastic_bidding_returns b ruc_date (calls s) in
  let s1 := (bid_into_DAM options ruc_date ruc_hour s).2 in
  current_time (time_manager (simulator s)) = None →
  the_extensions s !! "plugin_objects" = Some (XPlugins d) →
  PyDict.get d "bidder" = Some b →
  ∃ s2,
    after_ruc_activation options s1 = (Ok tt, s2) ∧
    the_extensions s2 !! "current_bids" = Some (XBids bids) ∧
    the_extensions s2 !! "next_bids" = Some XNone ∧
    calls s2 = (calls s ++ [stochastic_bidding b ruc_date])%list ∧
    instance s2 = instance s.
Proof.
  intros bids s1 Hnow Hplugins Hb. unfold s1.
  rewrite (bid_into_DAM_first_day options ruc_date ruc_hour d b s Hnow Hplugins Hb).
  cbn [snd]. fold bids.
  set (s1' := with_extensions _ _).
  assert (the_extensions s1' !! "next_bids" = Some (XBids bids)) as Hnext.
  { apply lookup_insert_eq. }
  eexists. split.
  { unfold after_ruc_activation.
    by rewrite (bind_ok _ _ _ _ _ (extensions_getitem_Some _ _ _ Hnext)). }
  split; [| split; [| done]].
  - rewrite the_extensions_with_extensions.
    rewrite lookup_insert_ne by done. apply lookup_insert_eq.
  - rewrite the_extensions_with_extensions. apply lookup_insert_eq.
Qed.

Lemma plugin_object_Some (name : string) (d : PyDict.t handle) (o : handle) s :
  the_extensions s !! "plugin_objects" = Some (XPlugins d) →
  PyDict.get d name = Some o →
  plugin_object name s = (Ok o, s).
Proof.
  intros Hd Ho. unfold plugin_object.
  rewrite (bind_ok _ _ _ _ _ (extensions_getitem_Some _ _ _ Hd)). by rewrite Ho.
Qed.

Lemma plugin_object_None (name : string) s :
  the_extensions s !! "plugin_objects" = None →
  plugin_object name s = (Raise KeyError, s).
Proof.
  intros Hd. unfold plugin_object.
  by rewrite (bind_raise _ _ _ _ _ (extensions_getitem_None _ _ Hd)).
Qed.

(** X10. When ['plugin_objects'] holds a tracker,
    [update_observed_thermal_dispatch] returns normally after asking that
    tracker once for [get_last_delivered_power(generator = g)], [g] being
    the bidding generator, and stores the answer as the observed dispatch
    level of [g]. The levels of the other generators, the simulator and the
    instance stay as they were. *)
Theorem observed_dispatch_is_the_last_delivered_power
    (options : Options) (d : PyDict.t handle) (tr : handle) s :
  let g := bidding_generator options in
  let power := get_last_delivered_power_returns tr g (calls s) in
  the_extensions s !! "plugin_objects" = Some (XPlugins d) →
  PyDict.get d "tracker" = Some tr →
  ∃ s',
    update_observed_thermal_dispatch options s = (Ok tt, s') ∧
    observed_thermal_dispatch_levels s' !! g = Some power ∧
    (∀ g', g' ≠ g →
       observed_thermal_dispatch_levels s' !! g' =
         observed_thermal_dispatch_levels s !! g') ∧
    calls s' = (calls s ++ [get_last_delivered_power tr g])%list ∧
    simulator s' = simulator s ∧ instance s' = instance s.
Proof.
  intros g power Hd Htr. eexists. split.
  { unfold update_observed_thermal_dispatch.
    rewrite (bind_ok _ _ _ _ _ (plugin_object_Some _ _ _ _ Hd Htr)). reflexivity. }
  split; [apply lookup_insert_eq |].
  split; [intros g' Hg'; by apply lookup_insert_ne |]. done.
Qed.

(** X11. Before the plugin objects are installed no callback does anything:
    with no ['plugin_objects'] entry, [bid_into_DAM],
    [update_observed_thermal_dispatch] and [write_plugin_results] end with a
    [KeyError], [track_sced_signal] ends with a [KeyError] when the current
    time is set and with an [AttributeError] when it is [None], and each of
    them leaves the state, the log of calls included, as it was. *)
Theorem nothing_runs_without_plugin_objects
    (options : Options) (ruc_date : string) (ruc_hour : Z) s :
  the_extensions s !! "plugin_objects" = None →
  bid_into_DAM options ruc_date ruc_hour s = (Raise KeyError, s) ∧
  update_observed_thermal_dispatch options s = (Raise KeyError, s) ∧
  write_plugin_results options s = (Raise KeyError, s) ∧
  track_sced_signal options s =
    (Raise match current_time (time_manager (simulator s)) with
           | Some _ => KeyError
           | None => AttributeError
           end, s).
Proof.
  intros Hnone. pose proof (plugin_object_None "bidder" s Hnone) as Hbidder.
  pose proof (plugin_object_None "tracker" s Hnone) as Htracker.
  repeat split.
  - unfold bid_into_DAM. unfold bind at 1, gets.
    by rewrite (bind_raise _ _ _ _ _ Hbidder).
  - unfold update_observed_thermal_dispatch. by rewrite (bind_raise _ _ _ _ _ Htracker).
  - unfold write_plugin_results, plugin_items.
    by rewrite (bind_raise _ _ _ _ _
                  (bind_raise _ _ _ _ _ (extensions_getitem_None _ _ Hnone))).
  - unfold track_sced_signal.
    destruct (current_time (time_manager (simulator s))) as [now |] eqn:Hnow.
    + rewrite (bind_ok _ _ _ _ _ (current_time_attr_Some _ _ _ Hnow)).
      rewrite (bind_ok _ _ _ _ _ (current_time_attr_Some _ _ _ Hnow)).
      by rewrite (bind_raise _ _ _ _ _ Htracker).
    + by rewrite (bind_raise _ _ _ _ _ (current_time_attr_None _ _ Hnow)).
Qed.

End BidLifecycle.

(** ** Initialization, further *)

Module PyDictFacts.

Lemma get_set_eq {V} (d : PyDict.t V) (k : string) (v : V) :
  PyDict.get (PyDict.set d k v) k = Some v.
Proof.
  induction d as [| [k' v'] d IH]; cbn.
  - by rewrite decide_True.
  - destruct (decide (k' = k)) as [-> | Hne]; cbn.
    + by rewrite decide_True.
    + by rewrite decide_False.
Qed.

Lemma get_set_ne {V} (d : PyDict.t V) (k k0 : string) (v : V) :
  k0 ≠ k → PyDict.get (PyDict.set d k v) k0 = PyDict.get d k0.
Proof.
  intros Hne. induction d as [| [k' v'] d IH]; cbn.
  - by rewrite decide_False.
  - destruct (decide (k' = k)) as [-> | Hk]; cbn.
    + by rewrite !decide_False.
    + destruct (decide (k' = k0)); [done | exact IH].
Qed.

Lemma keys_set {V} (d : PyDict.t V) (k : string) (v : V) :
  (PyDict.set d k v).*1 =
    match PyDict.get d k with
    | Some _ => d.*1
    | None => (d.*1 ++ [k])%list
    end.
Proof.
  induction d as [| [k' v'] d IH]; cbn; [done |].
  destruct (decide (k' = k)) as [-> | Hk]; cbn; [done |].
  rewrite IH. by destruct (PyDict.get d k).
Qed.

End PyDictFacts.

Section MoreInitialization.

Context {num : Type} {collaborators : Collaborators num}.
Implicit Types s : state num.

Lemma with_extensions_insert_twice (k : string) (a b : ext_value num) s :
  with_extensions <[k := a]> (with_extensions <[k := b]> s) = with_extensions <[k := a]> s.
Proof. unfold with_extensions. cbn. by rewrite insert_insert_eq. Qed.

Lemma initialize_customized_results_resets (options : Options) s :
  let fresh :=
    with_extensions
      <["customized_results" := XResults ((λ c, (c, [])) <$> customized_results_columns)]>
      s in
  initialize_customized_results options s = (Ok tt, fresh) ∧
  initialize_customized_results options fresh = (Ok tt, fresh).
Proof.
  assert (∀ s0 : state num,
            initialize_customized_results options s0 =
              (Ok tt,
               with_extensions
                 <["customized_results" :=
                     XResults ((λ c, (c, [])) <$> customized_results_columns)]> s0)) as E.
  { intros s0. unfold initialize_customized_results.
    unfold bind at 1. cbn [extensions_setitem modify].
    do 6 (erewrite (bind_ok (results_setitem _ _ _));
          [| apply results_setitem_ok, lookup_with_insert]).
    erewrite results_setitem_ok by apply lookup_with_insert.
    by rewrite !with_extensions_insert_twice. }
  cbn zeta. split; [apply E |]. by rewrite E, with_extensions_insert_twice.
Qed.


(** X13. On an existing plugin dictionary [initialize_bidding_object] sets
    ['bidder'] to the coordinator's bidder and [initialize_tracking_object]
    sets ['tracker'] to its tracker; every other plugin stays, and the order
    of the dictionary is kept, a new key going last. *)
Theorem installing_a_handle_keeps_the_other_plugins
    (self : DoubleLoopCoordinator) (options : Options) (d : PyDict.t handle) s :
  the_extensions s !! "plugin_objects" = Some (XPlugins d) →
  (∃ d',
     initialize_bidding_object self options s =
       (Ok tt, with_extensions <["plugin_objects" := XPlugins d']> s) ∧
     PyDict.get d' "bidder" = Some (bidder self) ∧
     (∀ name, name ≠ "bidder" → PyDict.get d' name = PyDict.get d name) ∧
     d'.*1 = match PyDict.get d "bidder" with
             | Some _ => d.*1
             | None => (d.*1 ++ ["bidder"])%list
             end) ∧
  (∃ d',
     initialize_tracking_object self options s =
       (Ok tt, with_extensions <["plugin_objects" := XPlugins d']> s) ∧
     PyDict.get d' "tracker" = Some (tracker self) ∧
     (∀ name, name ≠ "tracker" → PyDict.get d' name = PyDict.get d name) ∧
     d'.*1 = match PyDict.get d "tracker" with
             | Some _ => d.*1
             | None => (d.*1 ++ ["tracker"])%list
             end).
Proof.
  intros Hd. split.
  - exists (PyDict.set d "bidder" (bidder self)).
    split; [by apply install_handle |].
    split; [apply PyDictFacts.get_set_eq |].
    split; [intros name Hname; by apply PyDictFacts.get_set_ne |].
    apply PyDictFacts.keys_set.
  - exists (PyDict.set d "tracker" (tracker self)).
    split; [by apply install_handle |].
    split; [apply PyDictFacts.get_set_eq |].
    split; [intros name Hname; by apply PyDictFacts.get_set_ne |].
    apply PyDictFacts.keys_set.
Qed.


End MoreInitialization.


(** ** What no callback ever does *)

Section RunPreserves.

Context {num : Type} {collaborators : Collaborators num}.
Variable P : state num → Prop.

(** [P] survives a write to the extensions under any key but
    ['customized_results'], a write to the observed levels, and a logged
    call that does not advance a model. *)
Hypothesis P_extensions :
  ∀ (k : string) (v : ext_value num) s,
    k ≠ "customized_results" → P s → P (with_extensions <[k := v]> s).
Hypothesis P_levels : ∀ f s, P s → P (with_levels f s).
Hypothesis P_call : ∀ e s, advances_a_model e = false → P s → P (with_call e s).

Ltac run_steps :=
  repeat first
    [ solve [auto with preserves]
    | apply preserves_after_call_global
    | apply preserves_bind; [| intros ?]
    | apply preserves_for_in; intros ? ?
    | apply preserves_modify; intros ? ?;
      first [ apply P_extensions; [discriminate | assumption]
            | apply P_levels; assumption
            | apply P_call; [reflexivity | assumption] ]
    | match goal with
      | |- preserves _ (match ?x with _ => _ end) => destruct x
      | |- preserves _ (if ?b then _ else _) => destruct b
      end ].

Lemma run_preserves (self : DoubleLoopCoordinator) (m : method) (options : Options)
    (ruc_date : string) (ruc_hour : Z) :
  m ≠ m_initialize_customized_results →
  preserves P (run self m options ruc_date ruc_hour).
Proof.
  intros Hm. destruct m; cbn; try done.
  - unfold initialize_bidding_object, extensions_setdefault, plugins_setitem,
      extensions_setitem. run_steps.
  - unfold initialize_tracking_object, extensions_setdefault, plugins_setitem,
      extensions_setitem. run_steps.
  - unfold bid_into_DAM, call_returning, call, extensions_setitem. run_steps.
  - unfold bid_into_RTM. run_steps.
  - unfold track_sced_signal. run_steps.
  - unfold update_observed_thermal_dispatch, call_returning, call. run_steps.
  - unfold after_ruc_activation, extensions_setitem. run_steps.
  - unfold write_plugin_results, plugin_items, call. run_steps.
Qed.

End RunPreserves.

Section Never.

Context {num : Type} {collaborators : Collaborators num}.
Implicit Types s : state num.

Lemma simulate_cons (f : firing) (fs : list firing) s :
  simulate (f :: fs) s =
    simulate fs
      (fire (fired f) (with_options f) (with_ruc_date f) (with_ruc_hour f) s).2.
Proof. reflexivity. Qed.

(** A property kept by every callback is kept by every sequence of firings. *)
Lemma simulate_preserves (P : state num → Prop) :
  (∀ self m options ruc_date ruc_hour,
     preserves P (run self m options ruc_date ruc_hour)) →
  ∀ fs s, P s → P (simulate fs s).
Proof.
  intros Hrun fs. induction fs as [| f fs IH]; intros s Hs; [done |].
  rewrite simulate_cons. apply IH. by apply Hrun.
Qed.

Lemma initialize_customized_results_preserves (P : state num → Prop) (options : Options) :
  (∀ v s, P s → P (with_extensions <["customized_results" := v]> s)) →
  preserves P (initialize_customized_results (num := num) options).
Proof.
  intros HP s Hs.
  destruct (initialize_customized_results_resets options s) as [-> _]. by apply HP.
Qed.

(** X16. The callbacks write only to the extensions, to the observed
    dispatch levels and to the log of calls: after any sequence of firings
    of any coordinators' callbacks, returning or raising, the RUC or SCED
    instance, the time manager and both RUC markets are what they were. In
    particular no callback ever stores a ['p_cost'] in a market instance. *)
Theorem callbacks_never_touch_the_markets (fs : list firing) s :
  instance (simulate fs s) = instance s ∧
  time_manager (simulator (simulate fs s)) = time_manager (simulator s) ∧
  ruc_market_active (data_manager (simulator (simulate fs s))) =
    ruc_market_active (data_manager (simulator s)) ∧
  ruc_market_pending (data_manager (simulator (simulate fs s))) =
    ruc_market_pending (data_manager (simulator s)).
Proof.
  set (P := λ s' : state num,
         instance s' = instance s ∧
         time_manager (simulator s') = time_manager (simulator s) ∧
         ruc_market_active (data_manager (simulator s')) =
           ruc_market_active (data_manager (simulator s)) ∧
         ruc_market_pending (data_manager (simulator s')) =
           ruc_market_pending (data_manager (simulator s))).
  apply (simulate_preserves P); [| done].
  intros self m options ruc_date ruc_hour.
  destruct (decide (m = m_initialize_customized_results)) as [-> | Hm].
  - by apply initialize_customized_results_preserves.
  - by apply run_preserves.
Qed.

(** X17. No callback ever reaches the tracking model or the bidder's
    update: if the log holds no [pass_schedule_to_track] and no
    [update_model] call, it holds none after any sequence of firings. The
    only calls the callbacks make are [stochastic_bidding],
    [get_last_delivered_power] and [write_results]. *)
Theorem callbacks_never_advance_a_model (fs : list firing) s :
  Forall (λ e, advances_a_model e = false) (calls s) →
  Forall (λ e, advances_a_model e = false) (calls (simulate fs s)).
Proof.
  apply (simulate_preserves (λ s', Forall (λ e, advances_a_model e = false) (calls s'))).
  intros self m options ruc_date ruc_hour.
  destruct (decide (m = m_initialize_customized_results)) as [-> | Hm].
  - by apply initialize_customized_results_preserves.
  - apply run_preserves; [done | done | | done].
    intros e s' He Hs'. cbn. apply Forall_app. by split; [| constructor].
Qed.

(** X18. The customized results are never filled: once
    ['customized_results'] holds the seven empty columns, it holds them
    after any sequence of firings; no callback appends a row. *)
Theorem customized_results_stay_empty (fs : list firing) s :
  let empty := XResults ((λ c, (c, [])) <$> customized_results_columns) in
  the_extensions s !! "customized_results" = Some empty →
  the_extensions (simulate fs s) !! "customized_results" = Some empty.
Proof.
  intros empty.
  apply (simulate_preserves (λ s', the_extensions s' !! "customized_results" = Some empty)).
  intros self m options ruc_date ruc_hour.
  destruct (decide (m = m_initialize_customized_results)) as [-> | Hm].
  - intros s' _. cbn [run].
    destruct (initialize_customized_results_resets options s') as [-> _].
    apply lookup_with_insert.
  - apply run_preserves; [| done | done | done].
    intros k v s' Hk Hs'. rewrite the_extensions_with_extensions.
    by rewrite lookup_insert_ne.
Qed.

End Never.

(** ** The projection of the tracker *)

Section ProjectionFacts.

Context {num : Type} {collaborators : Collaborators num}
  {tracker_attributes : TrackerAttributes num}.
Implicit Types p : projection_state num.

Lemma bind_p_ok {A B} (c : MP num A) (k : A → MP num B) p a p' :
  c p = (Ok a, p') → bind_p c k p = k a p'.
Proof. unfold bind_p. by intros ->. Qed.

Lemma bind_p_raise {A B} (c : MP num A) (k : A → MP num B) p e p' :
  c p = (Raise e, p') → bind_p c k p = (Raise e, p').
Proof. unfold bind_p. by intros ->. Qed.

Lemma lift_read_only {A} (c : M num A) (r : result A) p :
  c (callback_state p) = (r, callback_state p) → lift c p = (r, p).
Proof. unfold lift. intros ->. by destruct p. Qed.

Lemma lift_plugin_object (name : string) (d : PyDict.t handle) (o : handle) p :
  the_extensions (callback_state p) !! "plugin_objects" = Some (XPlugins d) →
  PyDict.get d name = Some o →
  lift (plugin_object name) p = (Ok o, p).
Proof. intros Hd Ho. by apply lift_read_only, (plugin_object_Some name d). Qed.

Lemma call_global_NameError {A Args} (name : string) (args : Args) (s : state num) :
  name ∉ module_globals →
  call_global (A := A) name args s = (Raise (NameError name), s).
Proof. intros Hname. unfold call_global. by rewrite bool_decide_eq_false_2. Qed.

(** A step that does not change the state either ends the computation
    where it started or hands over in the same state. *)
Lemma bind_p_read_only_inv {A B} (c : MP num A) (k : A → MP num B) p r p' :
  (c p).2 = p → bind_p c k p = (r, p') →
  (∃ e, r = Raise e ∧ p' = p) ∨ (∃ a, k a p = (r, p')).
Proof.
  unfold bind_p. destruct (c p) as [[a | e] p1]; cbn; intros -> E.
  - right. by exists a.
  - left. exists e. by inversion E.
Qed.

Lemma lift_plugin_object_state (name : string) p :
  (lift (plugin_object name) p).2 = p.
Proof.
  unfold lift. pose proof (plugin_object_state name (callback_state p)) as H.
  destruct (plugin_object name (callback_state p)) as [r s']. cbn in *. subst s'.
  by destruct p.
Qed.

Lemma get_getitem_state {A} (o : option (gmap string A)) (gen_name : string) p :
  (get_getitem (num := num) o gen_name p).2 = p.
Proof. unfold get_getitem. destruct o as [d |]; [| done]. by destruct (d !! gen_name). Qed.

Lemma for_in_p_state {A B} (l : list A) (body : B → A → MP num B) (acc : B) p :
  (∀ b a, (body b a p).2 = p) → (for_in_p l body acc p).2 = p.
Proof.
  intros Hbody. revert acc. induction l as [| x l IH]; intros acc; cbn; [done |].
  unfold bind_p. specialize (Hbody acc x).
  destruct (body acc x p) as [[b | e] p1]; cbn in *; subst p1; [apply IH | done].
Qed.

(** One step of the loop of [get_full_projected_trajectory]. *)
Lemma merge_step (tr : handle) (gen_name stat : string)
    (full : gmap string (gmap string (list num))) p
    (dg pg : gmap string (list num)) (a b : list num) :
  PyDict.get (daily_stats tr (calls (callback_state p)) (tracker_calls p)) stat = Some dg →
  dg !! gen_name = Some a →
  projection tr (calls (callback_state p)) (tracker_calls p) !! stat = Some pg →
  pg !! gen_name = Some b →
  (stats <~~ tracker_attr (daily_stats tr);
   daily <~~ get_getitem (PyDict.get stats stat) gen_name;
   projected <~~ tracker_attr (projection tr);
   projected <~~ get_getitem (projected !! stat) gen_name;
   ret_p (alter <[gen_name := (daily ++ projected)%list]> stat
            (<[stat := (∅ : gmap string (list num))]> full))) p
  = (Ok (<[stat := {[ gen_name := (a ++ b)%list ]}]> full), p).
Proof.
  intros Hdg Ha Hpg Hb. unfold bind_p, tracker_attr, get_getitem, ret_p.
  rewrite Hdg, Ha, Hpg, Hb. do 2 f_equal.
  apply map_eq. intros k. destruct (decide (k = stat)) as [-> | Hk].
  - rewrite lookup_alter_eq, !lookup_insert_eq. cbn. by rewrite insert_empty.
  - by rewrite lookup_alter_ne, !lookup_insert_ne.
Qed.

End ProjectionFacts.

Section ProjectionTheorems.

Context {num : Type} {collaborators : Collaborators num}
  {tracker_attributes : TrackerAttributes num}.
Implicit Types p : projection_state num.

(** The loop of [get_full_projected_trajectory] over the statistics [l]. *)
Lemma merge_loop (tr : handle) (options : Options) (l : list string)
    (merged : string → option (gmap string (list num)))
    (acc : gmap string (gmap string (list num))) p :
  let gen_name := bidding_generator options in
  (∀ stat, stat ∈ l →
     ∃ dg pg a b,
       PyDict.get (daily_stats tr (calls (callback_state p)) (tracker_calls p)) stat
         = Some dg ∧
       dg !! gen_name = Some a ∧
       projection tr (calls (callback_state p)) (tracker_calls p) !! stat = Some pg ∧
       pg !! gen_name = Some b ∧
       merged stat = Some {[ gen_name := (a ++ b)%list ]}) →
  ∃ full,
    for_in_p l
      (λ full_projected_trajectory stat,
         let full_projected_trajectory :=
           <[stat := (∅ : gmap string (list num))]> full_projected_trajectory in
         let gen_name := bidding_generator options in
         stats <~~ tracker_attr (daily_stats tr);
         daily <~~ get_getitem (PyDict.get stats stat) gen_name;
         projected <~~ tracker_attr (projection tr);
         projected <~~ get_getitem (projected !! stat) gen_name;
         ret_p (alter <[gen_name := (daily ++ projected)%list]> stat
                  full_projected_trajectory))
      acc p = (Ok full, p) ∧
    ∀ stat, full !! stat = if decide (stat ∈ l) then merged stat else acc !! stat.
Proof.
  intros gen_name. revert acc. induction l as [| x l IH]; intros acc Hl.
  - exists acc. split; [done |]. intros stat.
    by rewrite decide_False by apply not_elem_of_nil.
  - destruct (Hl x) as (dg & pg & a & b & Hdg & Ha & Hpg & Hb & Hx).
    { apply elem_of_cons. by left. }
    destruct (IH (<[x := {[ gen_name := (a ++ b)%list ]}]> acc)) as (full & E & Hfull).
    { intros stat Hstat. apply Hl, elem_of_cons. by right. }
    exists full. split.
    + cbn [for_in_p]. cbv zeta.
      rewrite (bind_p_ok _ _ _ _ _ (merge_step tr gen_name x acc p dg pg a b Hdg Ha Hpg Hb)).
      exact E.
    + intros stat. rewrite Hfull.
      destruct (decide (stat = x)) as [-> | Hne].
      * rewrite (decide_True (P := x ∈ x :: l)) by (apply elem_of_cons; by left).
        case_decide; [done |]. by rewrite lookup_insert_eq.
      * rewrite lookup_insert_ne by done.
        destruct (decide (stat ∈ l)) as [Hin | Hnin].
        -- rewrite decide_True; [done |]. apply elem_of_cons. by right.
        -- rewrite decide_False; [done |]. by intros [? | ?]%elem_of_cons.
Qed.

(** X19. The full projected trajectory joins what was delivered with what
    is projected: when the tracker is installed and, for every statistic of
    [tracker.daily_stats], both [daily_stats] and [projection] have the
    series of the bidding generator, [get_full_projected_trajectory] returns
    a dictionary with exactly those statistics, each holding for the
    generator the daily series followed by the projected one; it then calls
    [clear_projection] once, and makes no other call. *)
Theorem full_trajectory_is_daily_stats_then_projection
    (options : Options) (d : PyDict.t handle) (tr : handle) p :
  let gen_name := bidding_generator options in
  let stats := daily_stats tr (calls (callback_state p)) (tracker_calls p) in
  let projected := projection tr (calls (callback_state p)) (tracker_calls p) in
  let merged (stat : string) : option (gmap string (list num)) :=
    dg ← PyDict.get stats stat; a ← dg !! gen_name;
    pg ← projected !! stat; b ← pg !! gen_name;
    Some {[ gen_name := (a ++ b)%list ]} in
  the_extensions (callback_state p) !! "plugin_objects" = Some (XPlugins d) →
  PyDict.get d "tracker" = Some tr →
  (∀ stat, stat ∈ stats.*1 → is_Some (merged stat)) →
  ∃ full,
    get_full_projected_trajectory options p =
      (Ok full,
       {| callback_state := callback_state p;
          tracker_calls := (tracker_calls p ++ [clear_projection tr])%list |}) ∧
    ∀ stat, full !! stat = if decide (stat ∈ stats.*1) then merged stat else None.
Proof.
  intros gen_name stats projected merged Hd Htr Hdata.
  destruct (merge_loop tr options stats.*1 merged ∅ p) as (full & E & Hfull).
  { intros stat Hstat. destruct (Hdata stat Hstat) as [m Hm]. revert Hm.
    unfold merged. fold stats projected gen_name.
    destruct (PyDict.get stats stat) as [dg |] eqn:Hdg; cbn; [| done].
    destruct (dg !! gen_name) as [a |] eqn:Ha; cbn; [| done].
    destruct (projected !! stat) as [pg |] eqn:Hpg; cbn; [| done].
    destruct (pg !! gen_name) as [b |] eqn:Hb; cbn; [| done].
    intros _. by exists dg, pg, a, b. }
  exists full. split.
  - unfold get_full_projected_trajectory.
    rewrite (bind_p_ok _ _ _ _ _ (lift_plugin_object _ _ _ _ Hd Htr)).
    unfold bind_p at 1, tracker_attr at 1. fold stats. unfold PyDict.items.
    rewrite (bind_p_ok _ _ _ _ _ E). reflexivity.
  - intros stat. rewrite Hfull. by case_decide.
Qed.

(** X20. The projection is cleared only after a complete merge: when
    [get_full_projected_trajectory] raises (no tracker installed, a statistic
    missing from [tracker.projection], the generator missing from a series),
    it has called nothing and changed nothing; [clear_projection] has not
    been called. *)
Theorem failed_merge_clears_nothing (options : Options) p e p' :
  get_full_projected_trajectory options p = (Raise e, p') → p' = p.
Proof.
  unfold get_full_projected_trajectory. intros E.
  apply bind_p_read_only_inv in E as [(? & _ & ->) | [tr E]]; [done | |].
  2: { apply lift_plugin_object_state. }
  apply bind_p_read_only_inv in E as [(? & _ & ->) | [stats E]]; [done | | done].
  apply bind_p_read_only_inv in E as [(? & _ & ->) | [full E]]; [done | |].
  2: { apply for_in_p_state. intros acc stat. cbv zeta.
       unfold bind_p, tracker_attr.
       pose proof (get_getitem_state (num := num)
                     (PyDict.get
                        (daily_stats tr (calls (callback_state p)) (tracker_calls p)) stat)
                     (bidding_generator options) p) as H1.
       destruct (get_getitem _ _ p) as [[a | e1] p1]; cbn in H1; subst p1; [| done].
       pose proof (get_getitem_state (num := num)
                     (projection tr (calls (callback_state p)) (tracker_calls p) !! stat)
                     (bidding_generator options) p) as H2.
       destruct (get_getitem _ _ p) as [[b | e2] p2]; cbn in H2; subst p2; done. }
  discriminate E.
Qed.

(** X21. [project_tracking_trajectory] never projects anything: with the
    tracker installed it clones the tracking model once and then ends with a
    [NameError], at the bare name [assemble_project_tracking_signal] when
    [ruc_hour < 24] and at [get_full_projected_trajectory] otherwise; the
    clone is never handed to [pass_schedule_to_track] and the state of the
    callbacks is unchanged. *)
Theorem project_tracking_trajectory_stops_after_cloning
    (options : Options) (ruc_hour : Z) (d : PyDict.t handle) (tr : handle) p :
  the_extensions (callback_state p) !! "plugin_objects" = Some (XPlugins d) →
  PyDict.get d "tracker" = Some tr →
  project_tracking_trajectory options ruc_hour p =
    (Raise (NameError (if bool_decide (ruc_hour < 24)
                       then "assemble_project_tracking_signal"
                       else "get_full_projected_trajectory")),
     {| callback_state := callback_state p;
        tracker_calls := (tracker_calls p ++ [clone_tracking_model tr])%list |}).
Proof.
  intros Hd Htr. unfold project_tracking_trajectory.
  rewrite (bind_p_ok _ _ _ _ _ (lift_plugin_object _ _ _ _ Hd Htr)).
  unfold bind_p at 1, tracker_call_returning at 1.
  set (p1 := {| callback_state := callback_state p; tracker_calls := _ |}).
  case_bool_decide as Hhour.
  - unfold range. rewrite seqZ_cons by lia. cbn [for_in_p].
    erewrite bind_p_raise; [reflexivity |].
    erewrite bind_p_raise; [reflexivity |].
    erewrite bind_p_raise; [reflexivity |].
    apply lift_read_only, call_global_NameError. by apply (bool_decide_unpack _).
  - unfold range. rewrite seqZ_nil by lia. cbn [for_in_p].
    rewrite (bind_p_ok _ _ _ _ _ (eq_refl : ret_p tt p1 = (Ok tt, p1))).
    apply lift_read_only, call_global_NameError. by apply (bool_decide_unpack _).
Qed.

End ProjectionTheorems.

(** ** The callbacks that never return *)

Section NeverReturns.

Context {num : Type} {collaborators : Collaborators num}.
Implicit Types s : state num.

Lemma bind_always_raises {A B} (c : M num A) (k : A → M num B) s :
  (∀ a s1, ∃ e s', k a s1 = (Raise e, s')) → ∃ e s', bind c k s = (Raise e, s').
Proof.
  intros Hk. unfold bind. destruct (c s) as [[a | e] s1]; [apply Hk | by eexists _, _].
Qed.

Lemma call_global_always_raises {A Args} (name : string) (args : Args) s :
  ∃ e s', call_global (num := num) (A := A) name args s = (Raise e, s').
Proof. destruct (call_global_raises (A := A) name args s) as [e ->]. by eexists _, _. Qed.

(** X22. Three callbacks never return normally. Whatever the state,
    [bid_into_RTM] and [track_sced_signal] end with an exception and leave the
    state as it was, and [bid_into_DAM] ends with an exception; after the
    first day (current time set) [bid_into_DAM] too leaves the state as it
    was, so that no bids are ever stored again. *)
Theorem market_callbacks_never_return
    (options : Options) (ruc_date : string) (ruc_hour : Z) s :
  (∃ e, bid_into_RTM options s = (Raise e, s)) ∧
  (∃ e, track_sced_signal options s = (Raise e, s)) ∧
  (∃ e s', bid_into_DAM options ruc_date ruc_hour s = (Raise e, s')) ∧
  (is_Some (current_time (time_manager (simulator s))) →
   ∃ e, bid_into_DAM options ruc_date ruc_hour s = (Raise e, s)).
Proof.
  split; [apply bid_into_RTM_raises |]. split; [| split].
  - assert (preserves (λ s', s' = s) (track_sced_signal options)) as Hstate.
    { unfold track_sced_signal. preserves_steps. }
    specialize (Hstate s eq_refl).
    assert (∃ e s', track_sced_signal options s = (Raise e, s')) as (e & s' & E).
    { unfold track_sced_signal.
      do 3 (apply bind_always_raises; intros ? ?).
      match goal with
      | |- ∃ e s', bind (call_global ?name ?args) ?k ?s0 = _ =>
          destruct (call_global_raises (A := gmap string (list num)) name args s0)
            as [e0 E0];
          rewrite (bind_raise _ _ _ _ _ E0)
      end.
      by eexists _, _. }
    rewrite E in Hstate. cbn in Hstate. subst s'. by exists e.
  - unfold bid_into_DAM.
    do 5 (apply bind_always_raises; intros ? ?). apply call_global_always_raises.
  - intros [now Hnow]. by apply (bid_into_DAM_later_day options ruc_date ruc_hour now).
Qed.

End NeverReturns.

(** ** The further properties at concrete inputs *)

Lemma projected_signal_is_flat_after_hour_23_witness :
  thermal_gen_cleared_DA (Example.market 100) !! (Example.gen, 23) = Some 123 ∧
  assemble_project_tracking_signal Example.options 23 Example.later_day =
    (Ok {[ Example.gen := [123; 123; 123; 123] ]}, Example.later_day).
Proof.
  split; [reflexivity |].
  apply (projected_signal_is_flat_after_hour_23 Example.options 23 Example.later_day
           (Example.market 100) 123); [lia | reflexivity | reflexivity].
Defined.

Lemma sced_signal_has_at_least_one_value_witness :
  sced_horizon TrackerExample.one_hour_options ≤ 1 ∧
  assemble_sced_tracking_market_signals TrackerExample.one_hour_options 5
    Example.later_day = (Ok {[ Example.gen := [7] ]}, Example.later_day).
Proof.
  split; [cbn; lia |].
  apply (sced_signal_has_at_least_one_value TrackerExample.one_hour_options 5
           Example.later_day {[ "pg" := NumSeries [7; 8; 9; 10] ]} [7; 8; 9; 10]
           (Example.market 100) 7); [cbn; lia | reflexivity ..].
Defined.

Lemma sced_signal_follows_projected_signal_within_the_day_witness :
  ∃ v vs,
    thermal_gen_cleared_DA (Example.market 100) !! (Example.gen, 10) = Some v ∧
    assemble_project_tracking_signal Example.options 10 Example.later_day =
      (Ok {[ Example.gen := v :: vs ]}, Example.later_day) ∧
    assemble_sced_tracking_market_signals Example.options 10 Example.later_day =
      (Ok {[ Example.gen := 7 :: vs ]}, Example.later_day).
Proof.
  apply (sced_signal_follows_projected_signal_within_the_day Example.options 10
           Example.later_day {[ "pg" := NumSeries [7; 8; 9; 10] ]} [7; 8; 9; 10]
           (Example.market 100) 7).
  - cbn. lia.
  - cbn. lia.
  - reflexivity.
  - reflexivity.
  - reflexivity.
  - reflexivity.
  - intros t Ht. cbn in Ht.
    assert (t = 10 ∨ t = 11 ∨ t = 12 ∨ t = 13) as [-> | [-> | [-> | ->]]] by lia;
      vm_compute; eauto.
Defined.

Lemma day_ahead_bids_become_a_series_of_piecewise_curves_witness :
  ∃ s',
    _pass_DA_bid_to_prescient Example.options Example.day_bids Example.first_day =
      (Ok tt, s') ∧
    generator (instance s') !! Example.gen =
      Some (<["p_cost" := CostCurveSeries [piecewise [(0, 0); (50, 1200)];
                                           piecewise [(0, 0); (60, 1500)]]]>
              {[ "pg" := NumSeries [7; 8; 9; 10] ]}) ∧
    calls s' = calls Example.first_day.
Proof.
  destruct (day_ahead_bids_become_a_series_of_piecewise_curves Example.options
              Example.day_bids {[ "pg" := NumSeries [7; 8; 9; 10] ]}
              [[(0, 0); (50, 1200)]; [(0, 0); (60, 1500)]] Example.first_day)
    as (s' & E & Hgen & _ & _ & _ & _ & Hcalls).
  - reflexivity.
  - change (range 0 (ruc_horizon Example.options)) with [0; 1].
    repeat constructor; eexists; split; reflexivity.
  - exists s'. split; [exact E |]. split; [exact Hgen | exact Hcalls].
Defined.

Lemma real_time_bid_becomes_a_piecewise_curve_witness :
  ∃ s',
    pass_RT_bid_to_prescient Example.options (XBids Example.day_bids) 1
      Example.later_day = (Ok tt, s') ∧
    generator (instance s') !! Example.gen =
      Some (<["p_cost" := CostCurve (piecewise [(0, 0); (60, 1500)])]>
              {[ "pg" := NumSeries [7; 8; 9; 10] ]}) ∧
    calls s' = calls Example.later_day.
Proof.
  destruct (real_time_bid_becomes_a_piecewise_curve Example.options Example.day_bids 1
              {[ "pg" := NumSeries [7; 8; 9; 10] ]}
              {[ Example.gen := [(0, 0); (60, 1500)] ]} [(0, 0); (60, 1500)]
              Example.later_day eq_refl eq_refl eq_refl)
    as (s' & E & Hgen & _ & _ & _ & Hcalls).
  exists s'. split; [exact E |]. split; [exact Hgen | exact Hcalls].
Defined.

Lemma failed_bid_passing_changes_nothing_witness :
  (_pass_DA_bid_to_prescient Example.options ∅ Example.first_day).1 = Raise KeyError ∧
  (_pass_DA_bid_to_prescient Example.options ∅ Example.first_day).2 = Example.first_day ∧
  (pass_RT_bid_to_prescient Example.options XNone 1 Example.later_day).1 =
    Raise TypeError ∧
  (pass_RT_bid_to_prescient Example.options XNone 1 Example.later_day).2 =
    Example.later_day.
Proof.
  destruct (failed_bid_passing_changes_nothing Example.options ∅ XNone 1
              Example.first_day) as [Hda _].
  destruct (failed_bid_passing_changes_nothing Example.options ∅ XNone 1
              Example.later_day) as [_ Hrt].
  split; [reflexivity |]. split; [apply (Hda KeyError); reflexivity |].
  split; [reflexivity |]. apply (Hrt TypeError); reflexivity.
Defined.

Lemma second_activation_discards_the_bids_witness :
  the_extensions Example.day_ahead_bid !! "next_bids" = Some (XBids Example.day_bids) ∧
  ∃ s',
    (after_ruc_activation Example.options ;> after_ruc_activation Example.options)
      Example.day_ahead_bid = (Ok tt, s') ∧
    the_extensions s' !! "current_bids" = Some XNone ∧
    the_extensions s' !! "next_bids" = Some XNone.
Proof.
  split; [reflexivity |].
  destruct (second_activation_discards_the_bids Example.options Example.day_ahead_bid
              (XBids Example.day_bids) 1 eq_refl) as (s' & E & Hc & Hn & _).
  exists s'. split; [exact E |]. split; [exact Hc | exact Hn].
Defined.

Lemma first_day_bids_are_activated_witness :
  ∃ s2,
    after_ruc_activation Example.options
      (bid_into_DAM (collaborators := Example.collaborators) Example.options
         "2020-07-10" 12 Example.first_day).2 = (Ok tt, s2) ∧
    the_extensions s2 !! "current_bids" = Some (XBids Example.day_bids) ∧
    the_extensions s2 !! "next_bids" = Some XNone ∧
    calls s2 = [stochastic_bidding 1%nat "2020-07-10"].
Proof.
  destruct (first_day_bids_are_activated (collaborators := Example.collaborators)
              Example.options "2020-07-10" 12
              [("bidder", 1%nat); ("tracker", 2%nat)] 1%nat Example.first_day
              eq_refl eq_refl eq_refl) as (s2 & E & Hc & Hn & Hcalls & _).
  exists s2. split; [exact E |]. split; [exact Hc |]. split; [exact Hn | exact Hcalls].
Defined.

Lemma observed_dispatch_is_the_last_delivered_power_witness :
  ∃ s',
    update_observed_thermal_dispatch (collaborators := Example.collaborators)
      Example.options Example.later_day = (Ok tt, s') ∧
    observed_thermal_dispatch_levels s' !! Example.gen = Some 55 ∧
    calls s' = [get_last_delivered_power 2%nat Example.gen].
Proof.
  destruct (observed_dispatch_is_the_last_delivered_power
              (collaborators := Example.collaborators) Example.options
              [("bidder", 1%nat); ("tracker", 2%nat)] 2%nat Example.later_day
              eq_refl eq_refl) as (s' & E & Hlevel & _ & Hcalls & _).
  exists s'. split; [exact E |]. split; [exact Hlevel | exact Hcalls].
Defined.

Lemma nothing_runs_without_plugin_objects_witness :
  the_extensions Example.before_first_bid !! "plugin_objects" = None ∧
  bid_into_DAM (collaborators := Example.collaborators) Example.options "2020-07-10" 12
    Example.before_first_bid = (Raise KeyError, Example.before_first_bid) ∧
  track_sced_signal (collaborators := Example.collaborators) Example.options
    Example.before_first_bid = (Raise AttributeError, Example.before_first_bid).
Proof.
  split; [reflexivity |].
  destruct (nothing_runs_without_plugin_objects (collaborators := Example.collaborators)
              Example.options "2020-07-10" 12 Example.before_first_bid eq_refl)
    as (Hdam & _ & _ & Htrack).
  split; [exact Hdam | exact Htrack].
Defined.

Lemma installing_a_handle_keeps_the_other_plugins_witness :
  let other := {| bidder := 7%nat; tracker := 8%nat |} in
  ∃ d',
    initialize_bidding_object other Example.options Example.later_day =
      (Ok tt, with_extensions <["plugin_objects" := XPlugins d']> Example.later_day) ∧
    PyDict.get d' "bidder" = Some 7%nat ∧
    PyDict.get d' "tracker" = Some 2%nat ∧
    d'.*1 = ["bidder"; "tracker"].
Proof.
  intros other.
  destruct (installing_a_handle_keeps_the_other_plugins other Example.options
              [("bidder", 1%nat); ("tracker", 2%nat)] Example.later_day eq_refl)
    as [(d' & E & Hb & Hother & Hkeys) _].
  exists d'. split; [exact E |]. split; [exact Hb |].
  split; [by rewrite Hother | exact Hkeys].
Defined.


Lemma callbacks_never_advance_a_model_witness :
  calls TrackerExample.initialized = [] ∧
  Forall (λ e, advances_a_model e = false)
    (calls (simulate (collaborators := Example.collaborators)
              TrackerExample.a_day TrackerExample.initialized)).
Proof.
  split; [reflexivity |].
  apply (callbacks_never_advance_a_model (collaborators := Example.collaborators)
           TrackerExample.a_day TrackerExample.initialized).
  constructor.
Defined.

Lemma customized_results_stay_empty_witness :
  the_extensions (simulate (collaborators := Example.collaborators)
                    TrackerExample.a_day TrackerExample.initialized)
    !! "customized_results" =
  Some (XResults ((λ c, (c, [])) <$> customized_results_columns)).
Proof.
  apply (customized_results_stay_empty (collaborators := Example.collaborators)
           TrackerExample.a_day TrackerExample.initialized).
  reflexivity.
Defined.

Lemma full_trajectory_is_daily_stats_then_projection_witness :
  ∃ full,
    get_full_projected_trajectory (tracker_attributes := TrackerExample.tracker_attributes)
      Example.options TrackerExample.projecting =
      (Ok full,
       {| callback_state := Example.later_day;
          tracker_calls := [clear_projection 2%nat] |}) ∧
    full !! "power" = Some {[ Example.gen := [50; 55; 60] ]} ∧
    full !! "start_up" = Some {[ Example.gen := [0; 1; 0] ]} ∧
    full !! "price" = None.
Proof.
  destruct (full_trajectory_is_daily_stats_then_projection
              (tracker_attributes := TrackerExample.tracker_attributes)
              Example.options [("bidder", 1%nat); ("tracker", 2%nat)] 2%nat
              TrackerExample.projecting eq_refl eq_refl) as (full & E & Hfull).
  - intros stat Hstat. cbn in Hstat.
    apply elem_of_cons in Hstat as [-> | Hstat]; [by vm_compute; eauto |].
    apply elem_of_cons in Hstat as [-> | Hstat]; [by vm_compute; eauto |].
    apply elem_of_cons in Hstat as [-> | Hstat]; [by vm_compute; eauto |].
    by apply elem_of_nil in Hstat.
  - exists full. split; [exact E |].
    split; [| split]; rewrite Hfull; reflexivity.
Defined.

Lemma failed_merge_clears_nothing_witness :
  (get_full_projected_trajectory (tracker_attributes := TrackerExample.tracker_attributes)
     Example.options TrackerExample.cleared).1 = Raise TypeError ∧
  (get_full_projected_trajectory (tracker_attributes := TrackerExample.tracker_attributes)
     Example.options TrackerExample.cleared).2 = TrackerExample.cleared.
Proof.
  split; [reflexivity |].
  apply (failed_merge_clears_nothing
           (tracker_attributes := TrackerExample.tracker_attributes)
           Example.options TrackerExample.cleared TypeError).
  reflexivity.
Defined.

Lemma project_tracking_trajectory_stops_after_cloning_witness :
  project_tracking_trajectory (tracker_attributes := TrackerExample.tracker_attributes)
    Example.options 12 TrackerExample.projecting =
    (Raise (NameError "assemble_project_tracking_signal"),
     {| callback_state := Example.later_day;
        tracker_calls := [clone_tracking_model 2%nat] |}).
Proof.
  exact (project_tracking_trajectory_stops_after_cloning
           (tracker_attributes := TrackerExample.tracker_attributes)
           Example.options 12 [("bidder", 1%nat); ("tracker", 2%nat)] 2%nat
           TrackerExample.projecting eq_refl eq_refl).
Defined.

Lemma market_callbacks_never_return_witness :
  is_Some (current_time (time_manager (simulator Example.later_day))) ∧
  (∃ e, bid_into_RTM Example.options Example.later_day = (Raise e, Example.later_day)) ∧
  (∃ e, track_sced_signal (collaborators := Example.collaborators) Example.options
          Example.later_day = (Raise e, Example.later_day)) ∧
  (∃ e, bid_into_DAM (collaborators := Example.collaborators) Example.options
          "2020-07-12" 12 Example.later_day = (Raise e, Example.later_day)).
Proof.
  assert (is_Some (current_time (time_manager (simulator Example.later_day)))) as Hnow.
  { by eexists. }
  destruct (market_callbacks_never_return (collaborators := Example.collaborators)
              Example.options "2020-07-12" 12 Example.later_day)
    as (Hrtm & Htrack & _ & Hdam).
  split; [exact Hnow |]. split; [exact Hrtm |]. split; [exact Htrack | exact (Hdam Hnow)].
Defined.
